(** * GStreamer tutorial programs: bus loop, dynamic pad linking, one-shot seek

    Shallow embedding of the three tutorial programs
      - gst-tutorials/bt2-gstreamer-concepts.c
      - gst-tutorials/bt3-dynamic-pipelines.c
      - gst-tutorials/bt4-seeking.c
    Every call into the media framework is recorded as an [event] carrying
    the arguments of the call and the answer of the framework; the answers
    are inputs of the model.  A program is a function from the framework's
    answers to the trace of its calls, its final state and its exit code. *)

From Stdlib Require Import ZArith List String Bool Lia.
Import ListNotations.
Local Open Scope string_scope.
Local Open Scope Z_scope.
Local Open Scope list_scope.

(** ** Framework values *)

(** A framework object seen through a pointer: [obj_ptr] is the address
    (pointer comparison in C), [obj_name] what GST_OBJECT_NAME reads. *)
Record GstObject : Type := mkObject {
  obj_ptr : N;
  obj_name : string
}.

Definition ptr_eqb (a b : GstObject) : bool := N.eqb (obj_ptr a) (obj_ptr b).

Inductive GstState : Type :=
| GST_STATE_VOID_PENDING
| GST_STATE_NULL
| GST_STATE_READY
| GST_STATE_PAUSED
| GST_STATE_PLAYING.

Definition GstState_eqb (a b : GstState) : bool :=
  match a, b with
  | GST_STATE_VOID_PENDING, GST_STATE_VOID_PENDING
  | GST_STATE_NULL, GST_STATE_NULL
  | GST_STATE_READY, GST_STATE_READY
  | GST_STATE_PAUSED, GST_STATE_PAUSED
  | GST_STATE_PLAYING, GST_STATE_PLAYING => true
  | _, _ => false
  end.

(** gst_element_state_get_name of the framework. *)
Definition gst_element_state_get_name (s : GstState) : string :=
  match s with
  | GST_STATE_VOID_PENDING => "VOID_PENDING"
  | GST_STATE_NULL => "NULL"
  | GST_STATE_READY => "READY"
  | GST_STATE_PAUSED => "PAUSED"
  | GST_STATE_PLAYING => "PLAYING"
  end.

Inductive GstStateChangeReturn : Type :=
| GST_STATE_CHANGE_FAILURE
| GST_STATE_CHANGE_SUCCESS
| GST_STATE_CHANGE_ASYNC
| GST_STATE_CHANGE_NO_PREROLL.

Definition is_state_change_failure (r : GstStateChangeReturn) : bool :=
  match r with GST_STATE_CHANGE_FAILURE => true | _ => false end.

Inductive GstFormat : Type :=
| GST_FORMAT_TIME
| GST_FORMAT_BYTES.

Inductive GstMessageType : Type :=
| GST_MESSAGE_ERROR
| GST_MESSAGE_EOS
| GST_MESSAGE_STATE_CHANGED
| GST_MESSAGE_DURATION
| GST_MESSAGE_OTHER.

(** A bus message is a tagged value: the tag is what GST_MESSAGE_TYPE
    reads, the fields are what the gst_message_parse_* accessors yield. *)
Inductive GstMessageBody : Type :=
| MsgError (err_message : string) (debug_info : option string)
| MsgEos
| MsgStateChanged (old_state new_state pending_state : GstState)
| MsgDuration
| MsgOther.

Record GstMessage : Type := mkMessage {
  msg_ptr : N;
  msg_src : GstObject;
  msg_body : GstMessageBody
}.

Definition GST_MESSAGE_TYPE (m : GstMessage) : GstMessageType :=
  match msg_body m with
  | MsgError _ _ => GST_MESSAGE_ERROR
  | MsgEos => GST_MESSAGE_EOS
  | MsgStateChanged _ _ _ => GST_MESSAGE_STATE_CHANGED
  | MsgDuration => GST_MESSAGE_DURATION
  | MsgOther => GST_MESSAGE_OTHER
  end.

(** ** Clock values (gint64 / guint64 as Z with the wrap-around written out) *)

Definition to_guint64 (z : Z) : Z := z mod 2 ^ 64.

Definition to_gint64 (z : Z) : Z :=
  let u := z mod 2 ^ 64 in if u <? 2 ^ 63 then u else u - 2 ^ 64.

(** Framework constants of gst/gstclock.h and gst/gstsegment.h. *)
Definition GST_CLOCK_TIME_NONE : Z := 2 ^ 64 - 1.
Definition GST_SECOND : Z := 1000000000.
Definition GST_MSECOND : Z := 1000000.
Definition GST_SEEK_FLAG_FLUSH : Z := Z.shiftl 1 0.
Definition GST_SEEK_FLAG_KEY_UNIT : Z := Z.shiftl 1 2.

Definition GST_CLOCK_TIME_IS_VALID (t : Z) : bool :=
  negb (to_guint64 t =? GST_CLOCK_TIME_NONE).

(** ** Pads and capabilities (tutorial bt3) *)

Record GstStructure : Type := mkStructure {
  structure_name : string
}.

Record GstCaps : Type := mkCaps {
  caps_ptr : N;
  caps_structures : list GstStructure
}.

Record GstPad : Type := mkPad {
  pad_obj : GstObject;
  pad_current_caps : option GstCaps
}.

Inductive GstPadLinkReturn : Type :=
| GST_PAD_LINK_OK
| GST_PAD_LINK_WRONG_HIERARCHY
| GST_PAD_LINK_WAS_LINKED
| GST_PAD_LINK_WRONG_DIRECTION
| GST_PAD_LINK_NOFORMAT
| GST_PAD_LINK_NOSCHED
| GST_PAD_LINK_REFUSED.

(** GST_PAD_LINK_FAILED(ret) is (ret < GST_PAD_LINK_OK); OK is the only
    non-negative value of the enumeration. *)
Definition GST_PAD_LINK_FAILED (r : GstPadLinkReturn) : bool :=
  match r with GST_PAD_LINK_OK => false | _ => true end.

(** ** Events: the calls a program makes, with the framework's answers *)

(** Arguments of a printf-like call.  [A_str None] is a NULL string passed
    to %s; [A_time t] stands for GST_TIME_ARGS (t). *)
Inductive arg : Type :=
| A_str (s : option string)
| A_time (t : Z).

Inductive gvalue : Type :=
| G_int (n : Z)
| G_str (s : string).

Inductive event : Type :=
| Ev_print (fmt : string) (args : list arg)
| Ev_printerr (fmt : string) (args : list arg)
| Ev_critical (func assertion : string)
| Ev_factory_make (factory name : string) (res : option GstObject)
| Ev_pipeline_new (name : string) (res : option GstObject)
| Ev_bin_add_many (bin : GstObject) (elems : list GstObject)
| Ev_element_link (chain : list GstObject) (ok : bool)
| Ev_object_set (obj : GstObject) (property : string) (value : gvalue)
| Ev_signal_connect (obj : GstObject) (signal handler : string)
| Ev_set_state (e : GstObject) (s : GstState) (r : GstStateChangeReturn)
| Ev_get_bus (e bus : GstObject)
| Ev_bus_pop (bus : GstObject) (timeout : Z) (filter : list GstMessageType)
    (res : option GstMessage)
| Ev_message_unref (m : GstMessage)
| Ev_object_unref (o : GstObject)
| Ev_query_position (e : GstObject) (f : GstFormat) (res : option Z)
| Ev_query_duration (e : GstObject) (f : GstFormat) (res : option Z)
| Ev_query_seeking (e : GstObject) (f : GstFormat) (res : option (bool * Z * Z))
| Ev_query_unref
| Ev_seek_simple (e : GstObject) (f : GstFormat) (flags seek_pos : Z)
| Ev_get_static_pad (e : GstObject) (name : string) (pad : GstObject)
| Ev_pad_is_linked (pad : GstObject) (res : bool)
| Ev_pad_get_current_caps (pad : GstObject) (res : option GstCaps)
| Ev_pad_link (src sink : GstObject) (r : GstPadLinkReturn)
| Ev_caps_unref (c : GstCaps).

Definition trace : Type := list event.

(** ** A state-and-trace monad for the programs *)

Section Prog.
Context {St : Type}.

Definition prog (A : Type) : Type := St -> A * St * trace.

Definition ret {A : Type} (a : A) : prog A := fun s => (a, s, []).

Definition bind {A B : Type} (c : prog A) (k : A -> prog B) : prog B :=
  fun s =>
    let '(a, s1, t1) := c s in
    let '(b, s2, t2) := k a s1 in
    (b, s2, t1 ++ t2).

Definition emit (e : event) : prog unit := fun s => (tt, s, [e]).

Definition get : prog St := fun s => (s, s, []).

Definition modify (f : St -> St) : prog unit := fun s => (tt, f s, []).

End Prog.

Arguments prog St A : clear implicits.

Declare Scope prog_scope.
Delimit Scope prog_scope with prog.
Notation "x <- c ;; k" := (bind c (fun x => k))
  (at level 61, c at next level, right associativity) : prog_scope.
Notation "' pat <- c ;; k" := (bind c (fun x => match x with pat => k end))
  (at level 61, pat pattern, c at next level, right associativity) : prog_scope.
Notation "c ;; k" := (bind c (fun _ => k))
  (at level 61, right associativity) : prog_scope.
Local Open Scope prog_scope.

Definition g_print {St : Type} (fmt : string) (args : list arg) : prog St unit :=
  emit (Ev_print fmt args).

Definition g_printerr {St : Type} (fmt : string) (args : list arg) : prog St unit :=
  emit (Ev_printerr fmt args).

(** Run a block that owns a local state (a struct on main's stack). *)
Definition scoped {St St' A : Type} (init : St') (c : prog St' A) : prog St (A * St') :=
  fun s => let '(a, s', t) := c init in ((a, s'), s, t).

Definition state_of {St A : Type} (r : A * St * trace) : St := snd (fst r).
Definition trace_of {St A : Type} (r : A * St * trace) : trace := snd r.
Definition value_of {St A : Type} (r : A * St * trace) : A := fst (fst r).

(** ** Tutorial bt4: position polling and the one-shot seek *)

Module Bt4.

Record CustomData : Type := mkData {
  playbin : GstObject;
  playing : bool;
  terminate : bool;
  seek_enabled : bool;
  seek_done : bool;
  duration : Z
}.

Definition set_playing (b : bool) (d : CustomData) : CustomData :=
  mkData (playbin d) b (terminate d) (seek_enabled d) (seek_done d) (duration d).
Definition set_terminate (b : bool) (d : CustomData) : CustomData :=
  mkData (playbin d) (playing d) b (seek_enabled d) (seek_done d) (duration d).
Definition set_seek_enabled (b : bool) (d : CustomData) : CustomData :=
  mkData (playbin d) (playing d) (terminate d) b (seek_done d) (duration d).
Definition set_seek_done (b : bool) (d : CustomData) : CustomData :=
  mkData (playbin d) (playing d) (terminate d) (seek_enabled d) b (duration d).
Definition set_duration (z : Z) (d : CustomData) : CustomData :=
  mkData (playbin d) (playing d) (terminate d) (seek_enabled d) (seek_done d) z.

(** What the framework answers during one turn of the loop: the message
    popped from the bus (None: the 100 ms timeout expired) and the replies
    it gives to the queries of this turn, should they be asked
    (None: the query fails). *)
Record iteration : Type := mkIteration {
  popped : option GstMessage;
  position_reply : option Z;
  duration_reply : option Z;
  seeking_reply : option (bool * Z * Z)
}.

(** gst_element_query_position / _duration: the result is (success, value
    now behind the out pointer).  After a failed query the pointer holds
    what it held before the call, which is -1 at both call sites (the
    value the framework itself stores there on failure). *)
Definition gst_element_query_position (e : GstObject) (reply : option Z) (cur : Z)
  : prog CustomData (bool * Z) :=
  emit (Ev_query_position e GST_FORMAT_TIME reply) ;;
  ret (match reply with Some p => (true, p) | None => (false, cur) end).

Definition gst_element_query_duration (e : GstObject) (reply : option Z) (cur : Z)
  : prog CustomData (bool * Z) :=
  emit (Ev_query_duration e GST_FORMAT_TIME reply) ;;
  ret (match reply with Some p => (true, p) | None => (false, cur) end).

Definition position_fmt : string :=
  "Position %u:%02u:%02u.%09u / %u:%02u:%02u.%09u\r".

(** static void handle_message (CustomData *data, GstMessage *msg) *)
Definition handle_message (seeking : option (bool * Z * Z)) (msg : GstMessage)
  : prog CustomData unit :=
  match msg_body msg with
  | MsgError err debug_info =>
      g_printerr "Error received from element %s: %s\n"
        [A_str (Some (obj_name (msg_src msg))); A_str (Some err)] ;;
      g_printerr "Debugging information: %s\n"
        [A_str (Some (match debug_info with Some d => d | None => "none" end))] ;;
      modify (set_terminate true)
  | MsgEos =>
      g_print "\nEnd-Of-Stream reached.\n" [] ;;
      modify (set_terminate true)
  | MsgDuration =>
      modify (set_duration (to_gint64 GST_CLOCK_TIME_NONE))
  | MsgStateChanged old_state new_state pending_state =>
      data <- get ;;
      if ptr_eqb (msg_src msg) (playbin data) then
        g_print "Pipeline state changed from %s to %s:\n"
          [A_str (Some (gst_element_state_get_name old_state));
           A_str (Some (gst_element_state_get_name new_state))] ;;
        modify (set_playing (GstState_eqb new_state GST_STATE_PLAYING)) ;;
        data <- get ;;
        if playing data then
          emit (Ev_query_seeking (playbin data) GST_FORMAT_TIME seeking) ;;
          match seeking with
          | Some (enabled, start, stop) =>
              modify (set_seek_enabled enabled) ;;
              if enabled then
                g_print "Seeking is ENABLED from %u:%02u:%02u.%09u to %u:%02u:%02u.%09u\n"
                  [A_time start; A_time stop]
              else
                g_print "Seeking is DISABLED for this stream.\n" []
          | None =>
              g_printerr "Seeking query failed." []
          end ;;
          emit Ev_query_unref
        else ret tt
      else ret tt
  | MsgOther =>
      g_printerr "Unexpected message received.\n" []
  end ;;
  emit (Ev_message_unref msg).

(** The else branch of the loop body: no message, the timeout expired. *)
Definition on_timeout (it : iteration) : prog CustomData unit :=
  data <- get ;;
  if playing data then
    '(ok, current) <- gst_element_query_position (playbin data) (position_reply it) (-1) ;;
    (if ok then ret tt else g_printerr "Could not query current position.\n" []) ;;
    (if negb (GST_CLOCK_TIME_IS_VALID (duration data)) then
       '(ok, d) <- gst_element_query_duration (playbin data) (duration_reply it)
                     (duration data) ;;
       modify (set_duration d) ;;
       if ok then ret tt else g_printerr "Could not query current duration.\n" []
     else ret tt) ;;
    data <- get ;;
    g_print position_fmt [A_time current; A_time (duration data)] ;;
    if seek_enabled data && negb (seek_done data) && (10 * GST_SECOND <? current) then
      g_print "\nReached 10s, performing seek...\n" [] ;;
      emit (Ev_seek_simple (playbin data) GST_FORMAT_TIME
              (Z.lor GST_SEEK_FLAG_FLUSH GST_SEEK_FLAG_KEY_UNIT) (30 * GST_SECOND)) ;;
      modify (set_seek_done true)
    else ret tt
  else ret tt.

Definition bus_filter : list GstMessageType :=
  [GST_MESSAGE_STATE_CHANGED; GST_MESSAGE_ERROR; GST_MESSAGE_EOS; GST_MESSAGE_DURATION].

(** One turn of the do-while loop of main. *)
Definition loop_body (bus : GstObject) (it : iteration) : prog CustomData unit :=
  emit (Ev_bus_pop bus (100 * GST_MSECOND) bus_filter (popped it)) ;;
  match popped it with
  | Some msg => handle_message (seeking_reply it) msg
  | None => on_timeout it
  end.

(** do { ... } while (!data.terminate), run against the answers [its] of
    the framework; it stops at the first turn that leaves terminate set,
    or when the answers run out (a prefix of a longer run). *)
Fixpoint event_loop (bus : GstObject) (its : list iteration) : prog CustomData unit :=
  match its with
  | [] => ret tt
  | it :: rest =>
      loop_body bus it ;;
      data <- get ;;
      if terminate data then ret tt else event_loop bus rest
  end.

(** What the framework answers to one run of the program. *)
Record session : Type := mkSession {
  playbin_made : option GstObject;
  play_ret : GstStateChangeReturn;
  bus_of : GstObject;
  null_ret : GstStateChangeReturn;
  turns : list iteration
}.

Definition media_uri : string :=
  "file:///home/virus/Desktop/media/sintel_trailer-480p.webm".

Definition initial_data (pb : GstObject) : CustomData :=
  mkData pb false false false false (to_gint64 GST_CLOCK_TIME_NONE).

(** int main (int argc, char *argv[]).  The result is the value returned
    by main, or None when the answers ran out with the loop still going. *)
Definition main (w : session) : prog unit (option Z) :=
  emit (Ev_factory_make "playbin" "playbin" (playbin_made w)) ;;
  match playbin_made w with
  | None =>
      g_printerr "Not all elements could be created.\n" [] ;;
      ret (Some (-1))
  | Some pb =>
      emit (Ev_object_set pb "uri" (G_str media_uri)) ;;
      emit (Ev_set_state pb GST_STATE_PLAYING (play_ret w)) ;;
      if is_state_change_failure (play_ret w) then
        g_printerr "Unable to set the pipeline to the playing state.\n" [] ;;
        emit (Ev_object_unref pb) ;;
        ret (Some (-1))
      else
        emit (Ev_get_bus pb (bus_of w)) ;;
        '(_, data) <- scoped (initial_data pb) (event_loop (bus_of w) (turns w)) ;;
        if terminate data then
          emit (Ev_object_unref (bus_of w)) ;;
          emit (Ev_set_state pb GST_STATE_NULL (null_ret w)) ;;
          emit (Ev_object_unref pb) ;;
          ret (Some 0)
        else ret None
  end.

Definition exit_code (w : session) : option Z := value_of (main w tt).
Definition run_trace (w : session) : trace := trace_of (main w tt).

End Bt4.

(** ** Tutorial bt2: a source linked statically to a sink *)

Module Bt2.

(** What the framework answers to one run of the program; [popped] is
    what the blocking wait on the bus returns. *)
Record session : Type := mkSession {
  source_made : option GstObject;
  sink_made : option GstObject;
  pipeline_made : option GstObject;
  link_ok : bool;
  play_ret : GstStateChangeReturn;
  bus_of : GstObject;
  popped : option GstMessage;
  null_ret : GstStateChangeReturn
}.

Definition bus_filter : list GstMessageType := [GST_MESSAGE_ERROR; GST_MESSAGE_EOS].

(** The body of "if (msg != NULL)": the switch, then the release. *)
Definition parse_message (msg : GstMessage) : prog unit unit :=
  match msg_body msg with
  | MsgError err debug_info =>
      g_printerr "Error received from element %s: %s\n"
        [A_str (Some (obj_name (msg_src msg))); A_str (Some err)] ;;
      g_printerr "Debugging information: %s\n"
        [A_str (Some (match debug_info with Some d => d | None => "none" end))]
  | MsgEos =>
      g_print "End-Of-Stream reached.\n" []
  | _ =>
      g_printerr "Unexpected message received.\n" []
  end ;;
  emit (Ev_message_unref msg).

(** int main (int argc, char *argv[]) *)
Definition main (w : session) : prog unit Z :=
  emit (Ev_factory_make "videotestsrc" "source" (source_made w)) ;;
  emit (Ev_factory_make "autovideosink" "sink" (sink_made w)) ;;
  emit (Ev_pipeline_new "test-pipeline" (pipeline_made w)) ;;
  match pipeline_made w, source_made w, sink_made w with
  | Some pipeline, Some source, Some sink =>
      emit (Ev_bin_add_many pipeline [source; sink]) ;;
      emit (Ev_element_link [source; sink] (link_ok w)) ;;
      if negb (link_ok w) then
        g_printerr "Elements could not be linked.\n" [] ;;
        emit (Ev_object_unref pipeline) ;;
        ret (-1)
      else
        emit (Ev_object_set source "pattern" (G_int 0)) ;;
        emit (Ev_set_state pipeline GST_STATE_PLAYING (play_ret w)) ;;
        if is_state_change_failure (play_ret w) then
          g_printerr "Unable to set the pipeline to the playing state.\n" [] ;;
          emit (Ev_object_unref pipeline) ;;
          ret (-1)
        else
          emit (Ev_get_bus pipeline (bus_of w)) ;;
          emit (Ev_bus_pop (bus_of w) GST_CLOCK_TIME_NONE bus_filter (popped w)) ;;
          match popped w with
          | Some msg => parse_message msg
          | None => ret tt
          end ;;
          emit (Ev_object_unref (bus_of w)) ;;
          emit (Ev_set_state pipeline GST_STATE_NULL (null_ret w)) ;;
          emit (Ev_object_unref pipeline) ;;
          ret 0
  | _, _, _ =>
      g_printerr "Not all elements could be created.\n" [] ;;
      ret (-1)
  end.

Definition exit_code (w : session) : Z := value_of (main w tt).
Definition run_trace (w : session) : trace := trace_of (main w tt).

End Bt2.

(** ** Tutorial bt3: linking a pad that appears at run time *)

Module Bt3.

Record CustomData : Type := mkData {
  pipeline : GstObject;
  source : GstObject;
  convert : GstObject;
  resample : GstObject;
  sink : GstObject
}.

(** The link state of the converter's sink pad, kept by the framework. *)
Record pads : Type := mkPads {
  convert_sink : GstObject;
  convert_sink_peer : option GstObject
}.

Definition gst_pad_is_linked (pad : GstObject) : prog pads bool :=
  w <- get ;;
  let linked := match convert_sink_peer w with Some _ => true | None => false end in
  emit (Ev_pad_is_linked pad linked) ;;
  ret linked.

Definition gst_pad_get_current_caps (pad : GstPad) : prog pads (option GstCaps) :=
  emit (Ev_pad_get_current_caps (pad_obj pad) (pad_current_caps pad)) ;;
  ret (pad_current_caps pad).

(** The three accessors below are given with the argument checks of the
    framework (g_return_val_if_fail): on a NULL argument they log a
    critical warning and return NULL, respectively FALSE. *)
Definition gst_caps_get_structure (caps : option GstCaps) (index : nat)
  : prog pads (option GstStructure) :=
  match caps with
  | None =>
      emit (Ev_critical "gst_caps_get_structure" "GST_IS_CAPS (caps)") ;;
      ret None
  | Some c =>
      match nth_error (caps_structures c) index with
      | Some s => ret (Some s)
      | None =>
          emit (Ev_critical "gst_caps_get_structure" "index < GST_CAPS_LEN (caps)") ;;
          ret None
      end
  end.

Definition gst_structure_get_name (s : option GstStructure) : prog pads (option string) :=
  match s with
  | None =>
      emit (Ev_critical "gst_structure_get_name" "structure != NULL") ;;
      ret None
  | Some st => ret (Some (structure_name st))
  end.

Definition g_str_has_prefix (str : option string) (prefix : string) : prog pads bool :=
  match str with
  | None =>
      emit (Ev_critical "g_str_has_prefix" "str != NULL") ;;
      ret false
  | Some s => ret (String.prefix prefix s)
  end.

(** gst_pad_link: [reply] is the framework's verdict; a successful link
    makes the new pad the peer of the sink pad. *)
Definition gst_pad_link (src_pad : GstPad) (sink_pad : GstObject)
    (reply : GstPadLinkReturn) : prog pads GstPadLinkReturn :=
  emit (Ev_pad_link (pad_obj src_pad) sink_pad reply) ;;
  (if GST_PAD_LINK_FAILED reply then ret tt
   else modify (fun w => mkPads (convert_sink w) (Some (pad_obj src_pad)))) ;;
  ret reply.

(** static void pad_added_handler (GstElement *src, GstPad *new_pad,
    CustomData *data).  The inner block yields the value of new_pad_caps
    with which the exit label is reached. *)
Definition pad_added_handler (src : GstObject) (new_pad : GstPad) (data : CustomData)
    (link_reply : GstPadLinkReturn) : prog pads unit :=
  w <- get ;;
  let sink_pad := convert_sink w in
  emit (Ev_get_static_pad (convert data) "sink" sink_pad) ;;
  g_print "Received new pad '%s' from '%s':\n"
    [A_str (Some (obj_name (pad_obj new_pad))); A_str (Some (obj_name src))] ;;
  linked <- gst_pad_is_linked sink_pad ;;
  new_pad_caps <-
    (if linked then
       g_print "We are already linked. Ignoring.\n" [] ;;
       ret None
     else
       new_pad_caps <- gst_pad_get_current_caps new_pad ;;
       new_pad_struct <- gst_caps_get_structure new_pad_caps 0 ;;
       new_pad_type <- gst_structure_get_name new_pad_struct ;;
       is_audio <- g_str_has_prefix new_pad_type "audio/x-raw" ;;
       (if negb is_audio then
          g_print "It has type '%s' which is not raw audio. Ignoring.\n"
            [A_str new_pad_type]
        else
          r <- gst_pad_link new_pad sink_pad link_reply ;;
          if GST_PAD_LINK_FAILED r then
            g_print "Type is '%s' but link failed.\n" [A_str new_pad_type]
          else
            g_print "Link succeeded (type '%s').\n" [A_str new_pad_type]) ;;
       ret new_pad_caps) ;;
  match new_pad_caps with
  | Some c => emit (Ev_caps_unref c)
  | None => ret tt
  end ;;
  emit (Ev_object_unref sink_pad).

(** A series of pad-added signals, each with the verdict the framework
    would give to a link attempt. *)
Fixpoint pad_added_signals (src : GstObject) (data : CustomData)
    (calls : list (GstPad * GstPadLinkReturn)) : prog pads unit :=
  match calls with
  | [] => ret tt
  | (new_pad, reply) :: rest =>
      pad_added_handler src new_pad data reply ;;
      pad_added_signals src data rest
  end.

Record session : Type := mkSession {
  source_made : option GstObject;
  convert_made : option GstObject;
  resample_made : option GstObject;
  sink_made : option GstObject;
  pipeline_made : option GstObject;
  link_ok : bool;
  play_ret : GstStateChangeReturn;
  bus_of : GstObject;
  pops : list (option GstMessage);
  null_ret : GstStateChangeReturn
}.

Definition bus_filter : list GstMessageType :=
  [GST_MESSAGE_STATE_CHANGED; GST_MESSAGE_ERROR; GST_MESSAGE_EOS].

Definition media_uri : string :=
  "https://www.freedesktop.org/software/gstreamer-sdk/data/media/sintel_trailer-480p.webm".

(** The body of "if (msg != NULL)" in the loop; the state is the local
    variable terminate of main. *)
Definition parse_message (data : CustomData) (msg : GstMessage) : prog bool unit :=
  match msg_body msg with
  | MsgError err debug_info =>
      g_printerr "Error received from element %s: %s\n"
        [A_str (Some (obj_name (msg_src msg))); A_str (Some err)] ;;
      g_printerr "Debugging information: %s\n"
        [A_str (Some (match debug_info with Some d => d | None => "none" end))] ;;
      modify (fun _ => true)
  | MsgEos =>
      g_print "End-Of-Stream reached.\n" [] ;;
      modify (fun _ => true)
  | MsgStateChanged old_state new_state pending_state =>
      if ptr_eqb (msg_src msg) (pipeline data) then
        g_print "Pipeline state changed from %s to %s:\n"
          [A_str (Some (gst_element_state_get_name old_state));
           A_str (Some (gst_element_state_get_name new_state))]
      else ret tt
  | _ =>
      g_printerr "Unexpected message received.\n" []
  end ;;
  emit (Ev_message_unref msg).

Fixpoint event_loop (data : CustomData) (bus : GstObject)
    (answers : list (option GstMessage)) : prog bool unit :=
  match answers with
  | [] => ret tt
  | answer :: rest =>
      emit (Ev_bus_pop bus GST_CLOCK_TIME_NONE bus_filter answer) ;;
      match answer with
      | Some msg => parse_message data msg
      | None => ret tt
      end ;;
      terminate <- (get : prog bool bool) ;;
      if terminate then ret tt else event_loop data bus rest
  end.

(** int main (int argc, char *argv[]).  The result is the value returned
    by main, or None when the answers ran out with the loop still going.
    The pad-added signals arrive on a thread of the framework and touch
    the link state only, which main never reads; they are run on their
    own with [pad_added_signals]. *)
Definition main (w : session) : prog unit (option Z) :=
  emit (Ev_factory_make "uridecodebin" "source" (source_made w)) ;;
  emit (Ev_factory_make "audioconvert" "convert" (convert_made w)) ;;
  emit (Ev_factory_make "audioresample" "resample" (resample_made w)) ;;
  emit (Ev_factory_make "autoaudiosink" "sink" (sink_made w)) ;;
  emit (Ev_pipeline_new "test-pipeline" (pipeline_made w)) ;;
  match pipeline_made w, source_made w, convert_made w, resample_made w, sink_made w with
  | Some p, Some src, Some conv, Some res, Some snk =>
      let data := mkData p src conv res snk in
      emit (Ev_bin_add_many p [src; conv; res; snk]) ;;
      emit (Ev_element_link [conv; res; snk] (link_ok w)) ;;
      if negb (link_ok w) then
        g_printerr "Elements could not be linked.\n" [] ;;
        emit (Ev_object_unref p) ;;
        ret (Some (-1))
      else
        emit (Ev_object_set src "uri" (G_str media_uri)) ;;
        emit (Ev_signal_connect src "pad-added" "pad_added_handler") ;;
        emit (Ev_set_state p GST_STATE_PLAYING (play_ret w)) ;;
        if is_state_change_failure (play_ret w) then
          g_printerr "Unable to set the pipeline to the playing state.\n" [] ;;
          emit (Ev_object_unref p) ;;
          ret (Some (-1))
        else
          emit (Ev_get_bus p (bus_of w)) ;;
          '(_, terminate) <- scoped false (event_loop data (bus_of w) (pops w)) ;;
          if terminate then
            emit (Ev_object_unref (bus_of w)) ;;
            emit (Ev_set_state p GST_STATE_NULL (null_ret w)) ;;
            emit (Ev_object_unref p) ;;
            ret (Some 0)
          else ret None
  | _, _, _, _, _ =>
      g_printerr "Not all elements could be created.\n" [] ;;
      ret (Some (-1))
  end.

Definition exit_code (w : session) : option Z := value_of (main w tt).
Definition run_trace (w : session) : trace := trace_of (main w tt).

End Bt3.

(** ** Ownership of framework objects along a trace

    The framework's ownership rules, as the data model has them: a created
    element or pipeline, and the bus handed out by gst_element_get_bus, are
    references the program holds; gst_bin_add_many hands the elements over
    to the bin; dropping the last reference to a bin destroys the bin and
    the elements it contains. *)

Record heap : Type := mkHeap {
  held : list GstObject;
  contained : list (GstObject * GstObject)
}.

Fixpoint drop_ref (o : GstObject) (l : list GstObject) : list GstObject :=
  match l with
  | [] => []
  | x :: rest => if ptr_eqb x o then rest else x :: drop_ref o rest
  end.

Definition acquire (o : GstObject) (h : heap) : heap :=
  mkHeap (o :: held h) (contained h).

Definition adopt (bin : GstObject) (elems : list GstObject) (h : heap) : heap :=
  mkHeap (fold_right drop_ref (held h) elems)
         (map (fun e => (bin, e)) elems ++ contained h).

Definition release (o : GstObject) (h : heap) : heap :=
  let held' := drop_ref o (held h) in
  if existsb (ptr_eqb o) held' then mkHeap held' (contained h)
  else mkHeap held' (filter (fun c => negb (ptr_eqb (fst c) o)) (contained h)).

Definition account (h : heap) (e : event) : heap :=
  match e with
  | Ev_factory_make _ _ (Some o) => acquire o h
  | Ev_pipeline_new _ (Some o) => acquire o h
  | Ev_get_bus _ bus => acquire bus h
  | Ev_get_static_pad _ _ pad => acquire pad h
  | Ev_bin_add_many bin elems => adopt bin elems h
  | Ev_object_unref o => release o h
  | _ => h
  end.

Definition heap_after (t : trace) : heap := fold_left account t (mkHeap [] []).

(** The objects still alive when the trace ends. *)
Definition live_objects (t : trace) : list GstObject :=
  let h := heap_after t in held h ++ map snd (contained h).

(** ** Ownership of bus messages along a trace

    A message popped from the bus belongs to the program until it is
    released.  The check runs over the trace with the message in hand:
    a pop while one is in hand, a release of anything but the message in
    hand, or a message in hand at the end, fail it. *)

Fixpoint message_discipline (in_hand : option GstMessage) (t : trace) : bool :=
  match t with
  | [] => match in_hand with None => true | Some _ => false end
  | Ev_bus_pop _ _ _ (Some m) :: rest =>
      match in_hand with
      | None => message_discipline (Some m) rest
      | Some _ => false
      end
  | Ev_message_unref m :: rest =>
      match in_hand with
      | Some m' => N.eqb (msg_ptr m) (msg_ptr m') && message_discipline None rest
      | None => false
      end
  | _ :: rest => message_discipline in_hand rest
  end.

(** ** Observations on traces *)

Definition is_seek (e : event) : bool :=
  match e with Ev_seek_simple _ _ _ _ => true | _ => false end.

Definition is_position_query (e : event) : bool :=
  match e with Ev_query_position _ _ _ => true | _ => false end.

Definition is_seeking_query (e : event) : bool :=
  match e with Ev_query_seeking _ _ _ => true | _ => false end.

Definition is_pad_link (e : event) : bool :=
  match e with Ev_pad_link _ _ _ => true | _ => false end.

Definition is_printerr (e : event) : bool :=
  match e with Ev_printerr _ _ => true | _ => false end.

Definition is_play_request (e : event) : bool :=
  match e with Ev_set_state _ GST_STATE_PLAYING _ => true | _ => false end.

Definition is_object_unref (e : event) : bool :=
  match e with Ev_object_unref _ => true | _ => false end.

Definition is_critical (e : event) : bool :=
  match e with Ev_critical _ _ => true | _ => false end.

Definition is_message_unref (e : event) : bool :=
  match e with Ev_message_unref _ => true | _ => false end.

Definition count (p : event -> bool) (t : trace) : nat := List.length (filter p t).

(** The position shown by the progress line of a polling turn. *)
Fixpoint reported_position (t : trace) : option Z :=
  match t with
  | [] => None
  | Ev_print fmt [A_time current; A_time _] :: rest =>
      if String.eqb fmt Bt4.position_fmt then Some current else reported_position rest
  | _ :: rest => reported_position rest
  end.

(** ** Quantities used in the statements *)

(** The value left in [current] by the position query of a turn. *)
Definition current_of (it : Bt4.iteration) : Z :=
  match Bt4.position_reply it with Some p => p | None => -1 end.

(** The duration cached after the duration query of a turn. *)
Definition duration_after (it : Bt4.iteration) (d : Bt4.CustomData) : Z :=
  if GST_CLOCK_TIME_IS_VALID (Bt4.duration d) then Bt4.duration d
  else match Bt4.duration_reply it with Some x => x | None => Bt4.duration d end.

Definition seek_due (it : Bt4.iteration) (d : Bt4.CustomData) : bool :=
  Bt4.seek_enabled d && negb (Bt4.seek_done d) && (10 * GST_SECOND <? current_of it).

Definition the_seek (d : Bt4.CustomData) : event :=
  Ev_seek_simple (Bt4.playbin d) GST_FORMAT_TIME
    (Z.lor GST_SEEK_FLAG_FLUSH GST_SEEK_FLAG_KEY_UNIT) (30 * GST_SECOND).

Definition flag (b : bool) : nat := if b then 1%nat else 0%nat.

Definition bt4_setup (w : Bt4.session) (pb : GstObject) : trace :=
  [Ev_factory_make "playbin" "playbin" (Bt4.playbin_made w);
   Ev_object_set pb "uri" (G_str Bt4.media_uri);
   Ev_set_state pb GST_STATE_PLAYING (Bt4.play_ret w)].

Definition bt4_teardown (w : Bt4.session) (pb : GstObject) : trace :=
  [Ev_object_unref (Bt4.bus_of w);
   Ev_set_state pb GST_STATE_NULL (Bt4.null_ret w);
   Ev_object_unref pb].

(** The message is a state-changed message of the playbin whose new state
    is PLAYING: the one case in which handle_message asks whether seeking
    is possible. *)
Definition announces_playing (pb : GstObject) (m : GstMessage) : bool :=
  match msg_body m with
  | MsgStateChanged _ new_state _ =>
      ptr_eqb (msg_src m) pb && GstState_eqb new_state GST_STATE_PLAYING
  | _ => false
  end.

(** The turn pops such a message. *)
Definition enters_playing (pb : GstObject) (it : Bt4.iteration) : bool :=
  match Bt4.popped it with
  | Some m => announces_playing pb m
  | None => false
  end.

(** None of the seeking queries made in the run answered "enabled". *)
Definition seeking_never_enabled (w : Bt4.session) : Prop :=
  forall pb it start stop,
    Bt4.playbin_made w = Some pb ->
    In it (Bt4.turns w) ->
    enters_playing pb it = true ->
    Bt4.seeking_reply it <> Some (true, start, stop).

Definition touches_message (e : event) : bool :=
  match e with
  | Ev_bus_pop _ _ _ (Some _) => true
  | Ev_message_unref _ => true
  | _ => false
  end.

(** A stretch of trace that neither pops nor releases a message. *)
Definition message_free (t : trace) : bool :=
  forallb (fun e => negb (touches_message e)) t.

Definition bt3_answer (data : Bt3.CustomData) (a : option GstMessage) (t : bool)
  : unit * bool * trace :=
  match a with
  | Some m => Bt3.parse_message data m t
  | None => (tt, t, [])
  end.

Definition absent {A : Type} (o : option A) : bool :=
  match o with Some _ => false | None => true end.

(** The message is an error or an end-of-stream. *)
Definition ends_loop (a : option GstMessage) : bool :=
  match a with
  | Some m =>
      match msg_body m with
      | MsgError _ _ | MsgEos => true
      | _ => false
      end
  | None => false
  end.

Definition bt2_construction_fails (w : Bt2.session) : bool :=
  absent (Bt2.pipeline_made w) || absent (Bt2.source_made w) || absent (Bt2.sink_made w)
  || negb (Bt2.link_ok w) || is_state_change_failure (Bt2.play_ret w).

Definition bt3_construction_fails (w : Bt3.session) : bool :=
  absent (Bt3.pipeline_made w) || absent (Bt3.source_made w)
  || absent (Bt3.convert_made w) || absent (Bt3.resample_made w)
  || absent (Bt3.sink_made w)
  || negb (Bt3.link_ok w) || is_state_change_failure (Bt3.play_ret w).

Definition bt4_construction_fails (w : Bt4.session) : bool :=
  absent (Bt4.playbin_made w) || is_state_change_failure (Bt4.play_ret w).

Definition bt3_received (src : GstObject) (new_pad : GstPad) : event :=
  Ev_print "Received new pad '%s' from '%s':\n"
    [A_str (Some (obj_name (pad_obj new_pad))); A_str (Some (obj_name src))].

(** What the handler does when the converter's sink pad has a peer. *)
Definition bt3_ignored (src : GstObject) (new_pad : GstPad) (data : Bt3.CustomData)
    (w : Bt3.pads) : trace :=
  [Ev_get_static_pad (Bt3.convert data) "sink" (Bt3.convert_sink w);
   bt3_received src new_pad;
   Ev_pad_is_linked (Bt3.convert_sink w) true;
   Ev_print "We are already linked. Ignoring.\n" [];
   Ev_object_unref (Bt3.convert_sink w)].

(** ** Concrete runs *)

Module Sample.

Definition playbin : GstObject := mkObject 1 "playbin".
Definition bus : GstObject := mkObject 2 "bus".
Definition decoder : GstObject := mkObject 3 "decodebin0".
Definition source : GstObject := mkObject 4 "source".
Definition convert : GstObject := mkObject 5 "convert".
Definition resample : GstObject := mkObject 6 "resample".
Definition sink : GstObject := mkObject 7 "sink".
Definition pipeline : GstObject := mkObject 8 "test-pipeline".
Definition convert_sink_pad : GstObject := mkObject 9 "sink".

(** bt4 in PLAYING, seeking enabled, 52 s of media. *)
Definition playing_data : Bt4.CustomData :=
  Bt4.mkData playbin true false true false 52000000000.

Definition seeked_data : Bt4.CustomData :=
  Bt4.mkData playbin true false true true 52000000000.

(** A polling turn with the given answer to the position query. *)
Definition tick (position : option Z) : Bt4.iteration :=
  Bt4.mkIteration None position None None.

Definition to_playing : GstMessage :=
  mkMessage 20 playbin
    (MsgStateChanged GST_STATE_PAUSED GST_STATE_PLAYING GST_STATE_VOID_PENDING).

Definition decoder_paused : GstMessage :=
  mkMessage 21 decoder
    (MsgStateChanged GST_STATE_READY GST_STATE_PAUSED GST_STATE_VOID_PENDING).

(** bt2 with no videotestsrc factory: the source is NULL. *)
Definition no_source : Bt2.session :=
  Bt2.mkSession None (Some sink) (Some pipeline) true GST_STATE_CHANGE_ASYNC bus None
    GST_STATE_CHANGE_SUCCESS.

(** bt2 playing to the end of the stream. *)
Definition plays_to_eos : Bt2.session :=
  Bt2.mkSession (Some source) (Some sink) (Some pipeline) true GST_STATE_CHANGE_ASYNC bus
    (Some (mkMessage 22 pipeline MsgEos)) GST_STATE_CHANGE_SUCCESS.

(** bt2 with a source and a sink that have no format in common. *)
Definition incompatible : Bt2.session :=
  Bt2.mkSession (Some source) (Some sink) (Some pipeline) false GST_STATE_CHANGE_ASYNC bus
    None GST_STATE_CHANGE_SUCCESS.

Definition bt3_data : Bt3.CustomData :=
  Bt3.mkData pipeline source convert resample sink.

Definition unlinked : Bt3.pads := Bt3.mkPads convert_sink_pad None.

Definition linked : Bt3.pads :=
  Bt3.mkPads convert_sink_pad (Some (mkObject 30 "src_0")).

(** A pad announced before its caps are negotiated. *)
Definition pad_without_caps : GstPad := mkPad (mkObject 31 "src_1") None.

Definition audio_pad : GstPad :=
  mkPad (mkObject 32 "src_2") (Some (mkCaps 40 [mkStructure "audio/x-raw"])).

Definition video_pad : GstPad :=
  mkPad (mkObject 33 "src_3") (Some (mkCaps 41 [mkStructure "video/x-raw"])).

End Sample.

(** ** Further observations, for the properties beyond the claims *)

Definition is_bus_pop (e : event) : bool :=
  match e with Ev_bus_pop _ _ _ _ => true | _ => false end.

Definition is_get_bus (e : event) : bool :=
  match e with Ev_get_bus _ _ => true | _ => false end.

Definition is_duration_query (e : event) : bool :=
  match e with Ev_query_duration _ _ _ => true | _ => false end.

Definition is_query_unref (e : event) : bool :=
  match e with Ev_query_unref => true | _ => false end.

Definition is_caps_unref (e : event) : bool :=
  match e with Ev_caps_unref _ => true | _ => false end.

Definition is_get_static_pad (e : event) : bool :=
  match e with Ev_get_static_pad _ _ _ => true | _ => false end.

(** A gst_pad_link call that the framework accepted. *)
Definition is_link_made (e : event) : bool :=
  match e with Ev_pad_link _ _ r => negb (GST_PAD_LINK_FAILED r) | _ => false end.

Definition is_duration_message (a : option GstMessage) : bool :=
  match a with
  | Some m => match msg_body m with MsgDuration => true | _ => false end
  | None => false
  end.

(** The list up to and including its first element satisfying [p]. *)
Fixpoint through_first {A : Type} (p : A -> bool) (l : list A) : list A :=
  match l with
  | [] => []
  | x :: rest => if p x then [x] else x :: through_first p rest
  end.

(** The new pad has current caps whose first structure is raw audio. *)
Definition pad_is_audio (new_pad : GstPad) : bool :=
  match pad_current_caps new_pad with
  | Some c =>
      match caps_structures c with
      | s :: _ => String.prefix "audio/x-raw" (structure_name s)
      | [] => false
      end
  | None => false
  end.

Definition sink_linked (w : Bt3.pads) : bool :=
  match Bt3.convert_sink_peer w with Some _ => true | None => false end.

(** The event leaves the ownership of framework objects as it is. *)
Definition heap_neutral (e : event) : bool :=
  match e with
  | Ev_factory_make _ _ (Some _) => false
  | Ev_pipeline_new _ (Some _) => false
  | Ev_get_bus _ _ => false
  | Ev_get_static_pad _ _ _ => false
  | Ev_bin_add_many _ _ => false
  | Ev_object_unref _ => false
  | _ => true
  end.

(** The kinds of call made between the first wait on the bus and the end
    of the event loop. *)
Definition inside_loop (e : event) : bool :=
  match e with
  | Ev_bus_pop _ _ _ _ => true
  | Ev_print _ _ => true
  | Ev_printerr _ _ => true
  | Ev_message_unref _ => true
  | Ev_query_position _ _ _ => true
  | Ev_query_duration _ _ _ => true
  | Ev_query_seeking _ _ _ => true
  | Ev_query_unref => true
  | Ev_seek_simple _ _ _ _ => true
  | _ => false
  end.


(** ** More concrete runs *)

Module Runs.

Definition eos : GstMessage := mkMessage 50 Sample.playbin MsgEos.

Definition duration_changed : GstMessage := mkMessage 51 Sample.playbin MsgDuration.

Definition message (m : GstMessage) : Bt4.iteration :=
  Bt4.mkIteration (Some m) None None None.

(** bt4 in PLAYING with the duration not known yet. *)
Definition fresh_data : Bt4.CustomData :=
  Bt4.mkData Sample.playbin true false false false (-1).

Definition bt4_plays : Bt4.session :=
  Bt4.mkSession (Some Sample.playbin) GST_STATE_CHANGE_ASYNC Sample.bus
    GST_STATE_CHANGE_SUCCESS
    [Bt4.mkIteration (Some Sample.to_playing) None None (Some (true, 0, 52000000000));
     Sample.tick (Some 11000000000); message eos; Sample.tick (Some 12000000000)].

Definition bt4_refused : Bt4.session :=
  Bt4.mkSession (Some Sample.playbin) GST_STATE_CHANGE_FAILURE Sample.bus
    GST_STATE_CHANGE_SUCCESS [message eos].

Definition bt2_refused : Bt2.session :=
  Bt2.mkSession (Some Sample.source) (Some Sample.sink) (Some Sample.pipeline) true
    GST_STATE_CHANGE_FAILURE Sample.bus None GST_STATE_CHANGE_SUCCESS.

Definition bt3_plays : Bt3.session :=
  Bt3.mkSession (Some Sample.source) (Some Sample.convert) (Some Sample.resample)
    (Some Sample.sink) (Some Sample.pipeline) true GST_STATE_CHANGE_ASYNC Sample.bus
    [Some (mkMessage 52 Sample.pipeline
             (MsgStateChanged GST_STATE_NULL GST_STATE_READY GST_STATE_PLAYING));
     None;
     Some (mkMessage 53 Sample.pipeline MsgEos);
     Some (mkMessage 54 Sample.pipeline MsgEos)]
    GST_STATE_CHANGE_SUCCESS.

Definition bt3_unlinkable : Bt3.session :=
  Bt3.mkSession (Some Sample.source) (Some Sample.convert) (Some Sample.resample)
    (Some Sample.sink) (Some Sample.pipeline) false GST_STATE_CHANGE_ASYNC Sample.bus
    [] GST_STATE_CHANGE_SUCCESS.

End Runs.

(** * Properties *)

(** ** Proof support *)

Ltac run_prog :=
  cbv [bind ret emit get modify scoped g_print g_printerr state_of trace_of value_of
       Bt4.gst_element_query_position Bt4.gst_element_query_duration
       Bt3.gst_pad_is_linked Bt3.gst_pad_get_current_caps Bt3.gst_caps_get_structure
       Bt3.gst_structure_get_name Bt3.g_str_has_prefix Bt3.gst_pad_link] in *;
  cbn [fst snd app negb andb orb Bt3.convert_sink Bt3.convert_sink_peer Bt4.playbin Bt4.playing Bt4.terminate Bt4.seek_enabled
       Bt4.seek_done Bt4.duration Bt4.set_playing Bt4.set_terminate
       Bt4.set_seek_enabled Bt4.set_seek_done Bt4.set_duration] in *.

(** Run a program symbolically, splitting on every test it reaches. *)
Ltac split_test :=
  match goal with
  | |- context [if ?c then _ else _] => destruct c eqn:?
  | |- context [match ?c with Some _ => _ | None => _ end] => destruct c eqn:?
  | |- context [let (_, _) := ?c in _] => is_var c; destruct c
  end.

Ltac exec_prog := run_prog; repeat (split_test; run_prog; try discriminate).

Lemma trace_of_mk {St A : Type} (a : A) (s : St) (t : trace) : trace_of (a, s, t) = t.
Proof. reflexivity. Qed.

Lemma state_of_mk {St A : Type} (a : A) (s : St) (t : trace) : state_of (a, s, t) = s.
Proof. reflexivity. Qed.

Lemma count_app (p : event -> bool) (t1 t2 : trace) :
  count p (t1 ++ t2) = (count p t1 + count p t2)%nat.
Proof. unfold count. rewrite filter_app, length_app. reflexivity. Qed.

Lemma ten_seconds_after_failure : (10 * GST_SECOND <? -1) = false.
Proof. reflexivity. Qed.

(** *** bt4: the polling turn *)

Lemma on_timeout_idle (it : Bt4.iteration) (d : Bt4.CustomData) :
  Bt4.playing d = false -> Bt4.on_timeout it d = (tt, d, []).
Proof.
  intros Hp. unfold Bt4.on_timeout. run_prog. rewrite Hp. reflexivity.
Qed.

Lemma on_timeout_state (it : Bt4.iteration) (d : Bt4.CustomData) :
  Bt4.playing d = true ->
  state_of (Bt4.on_timeout it d) =
    Bt4.mkData (Bt4.playbin d) true (Bt4.terminate d) (Bt4.seek_enabled d)
      (Bt4.seek_done d || seek_due it d) (duration_after it d).
Proof.
  intros Hp. unfold Bt4.on_timeout, seek_due, duration_after, current_of.
  destruct d as [pb pl te se sd du]; simpl in Hp; subst pl.
  destruct it as [po [p|] [q|] sk], se, sd; cbn [Bt4.position_reply Bt4.duration_reply];
    exec_prog; reflexivity.
Qed.

Lemma on_timeout_seeks (it : Bt4.iteration) (d : Bt4.CustomData) :
  Bt4.playing d = true ->
  filter is_seek (trace_of (Bt4.on_timeout it d)) =
    if seek_due it d then [the_seek d] else [].
Proof.
  intros Hp. unfold Bt4.on_timeout, seek_due, the_seek, current_of.
  destruct d as [pb pl te se sd du]; simpl in Hp; subst pl.
  destruct it as [po [p|] [q|] sk], se, sd; cbn [Bt4.position_reply Bt4.duration_reply];
    exec_prog; reflexivity.
Qed.

(** *** bt4: message handling *)

Lemma handle_message_seek_done (sk : option (bool * Z * Z)) (m : GstMessage)
    (d : Bt4.CustomData) :
  Bt4.seek_done (state_of (Bt4.handle_message sk m d)) = Bt4.seek_done d.
Proof.
  unfold Bt4.handle_message. destruct d as [pb pl te se sd du].
  destruct (msg_body m); exec_prog; reflexivity.
Qed.

Lemma handle_message_no_seek (sk : option (bool * Z * Z)) (m : GstMessage)
    (d : Bt4.CustomData) :
  filter is_seek (trace_of (Bt4.handle_message sk m d)) = [].
Proof.
  unfold Bt4.handle_message. destruct d as [pb pl te se sd du].
  destruct (msg_body m); exec_prog; reflexivity.
Qed.

Lemma handle_message_no_position_query (sk : option (bool * Z * Z)) (m : GstMessage)
    (d : Bt4.CustomData) :
  filter is_position_query (trace_of (Bt4.handle_message sk m d)) = [].
Proof.
  unfold Bt4.handle_message. destruct d as [pb pl te se sd du].
  destruct (msg_body m); exec_prog; reflexivity.
Qed.

(** *** bt4: the loop *)

Lemma loop_body_eq (bus : GstObject) (it : Bt4.iteration) (d : Bt4.CustomData) :
  Bt4.loop_body bus it d =
    let r := match Bt4.popped it with
             | Some msg => Bt4.handle_message (Bt4.seeking_reply it) msg d
             | None => Bt4.on_timeout it d
             end in
    (tt, state_of r,
     Ev_bus_pop bus (100 * GST_MSECOND) Bt4.bus_filter (Bt4.popped it) :: trace_of r).
Proof.
  unfold Bt4.loop_body. run_prog.
  destruct (Bt4.popped it);
    [destruct (Bt4.handle_message _ _ d) as [[[] ?] ?]
    | destruct (Bt4.on_timeout it d) as [[[] ?] ?]]; reflexivity.
Qed.

Lemma event_loop_cons (bus : GstObject) (it : Bt4.iteration)
    (rest : list Bt4.iteration) (d : Bt4.CustomData) :
  let r1 := Bt4.loop_body bus it d in
  Bt4.event_loop bus (it :: rest) d =
    if Bt4.terminate (state_of r1) then (tt, state_of r1, trace_of r1)
    else let r2 := Bt4.event_loop bus rest (state_of r1) in
         (tt, state_of r2, trace_of r1 ++ trace_of r2).
Proof.
  cbn [Bt4.event_loop]. run_prog.
  destruct (Bt4.loop_body bus it d) as [[[] d1] t1]. run_prog.
  destruct (Bt4.terminate d1).
  - rewrite app_nil_r. reflexivity.
  - destruct (Bt4.event_loop bus rest d1) as [[[] d2] t2]. reflexivity.
Qed.

(** Every seek of a turn raises seek_done, and nothing lowers it. *)
Lemma loop_body_seek_account (bus : GstObject) (it : Bt4.iteration)
    (d : Bt4.CustomData) :
  let r := Bt4.loop_body bus it d in
  (count is_seek (trace_of r) + flag (Bt4.seek_done d))%nat =
    flag (Bt4.seek_done (state_of r)).
Proof.
  cbv zeta. rewrite loop_body_eq. cbv zeta. unfold count.
  cbn [state_of trace_of fst snd filter is_seek].
  destruct (Bt4.popped it) as [m|].
  - fold (trace_of (Bt4.handle_message (Bt4.seeking_reply it) m d)).
    fold (state_of (Bt4.handle_message (Bt4.seeking_reply it) m d)).
    rewrite handle_message_no_seek, handle_message_seek_done. reflexivity.
  - fold (trace_of (Bt4.on_timeout it d)). fold (state_of (Bt4.on_timeout it d)).
    destruct (Bt4.playing d) eqn:Hp.
    + rewrite on_timeout_seeks, on_timeout_state by assumption.
      cbn [Bt4.seek_done]. unfold seek_due.
      destruct (Bt4.seek_done d), (Bt4.seek_enabled d),
        (10 * GST_SECOND <? current_of it); reflexivity.
    + rewrite on_timeout_idle by assumption. reflexivity.
Qed.

Lemma event_loop_seek_account (bus : GstObject) (its : list Bt4.iteration) :
  forall d : Bt4.CustomData,
    let r := Bt4.event_loop bus its d in
    (count is_seek (trace_of r) + flag (Bt4.seek_done d))%nat =
      flag (Bt4.seek_done (state_of r)).
Proof.
  induction its as [|it rest IH]; intros d; cbv zeta.
  - reflexivity.
  - rewrite event_loop_cons. cbv zeta.
    pose proof (loop_body_seek_account bus it d) as H1. cbv zeta in H1.
    destruct (Bt4.terminate (state_of (Bt4.loop_body bus it d))).
    + exact H1.
    + specialize (IH (state_of (Bt4.loop_body bus it d))). cbv zeta in IH.
      cbn [trace_of state_of fst snd] in *. rewrite count_app. lia.
Qed.

(** *** bt4: main *)

Lemma bt4_main_eq (w : Bt4.session) :
  Bt4.main w tt =
    match Bt4.playbin_made w with
    | None =>
        (Some (-1), tt,
         [Ev_factory_make "playbin" "playbin" None;
          Ev_printerr "Not all elements could be created.\n" []])
    | Some pb =>
        if is_state_change_failure (Bt4.play_ret w) then
          (Some (-1), tt,
           bt4_setup w pb ++
           [Ev_printerr "Unable to set the pipeline to the playing state.\n" [];
            Ev_object_unref pb])
        else
          let r := Bt4.event_loop (Bt4.bus_of w) (Bt4.turns w) (Bt4.initial_data pb) in
          if Bt4.terminate (state_of r) then
            (Some 0, tt,
             bt4_setup w pb ++ Ev_get_bus pb (Bt4.bus_of w) :: trace_of r
               ++ bt4_teardown w pb)
          else
            (None, tt, bt4_setup w pb ++ Ev_get_bus pb (Bt4.bus_of w) :: trace_of r)
    end.
Proof.
  unfold Bt4.main, bt4_setup, bt4_teardown. run_prog.
  destruct (Bt4.playbin_made w) as [pb|]; [|reflexivity].
  destruct (is_state_change_failure (Bt4.play_ret w)); [reflexivity|].
  destruct (Bt4.event_loop _ _ _) as [[[] d] t]. run_prog.
  destruct (Bt4.terminate d); cbn [app]; [reflexivity|].
  rewrite app_nil_r. reflexivity.
Qed.

Lemma bt4_run_seeks (w : Bt4.session) :
  filter is_seek (Bt4.run_trace w) =
    match Bt4.playbin_made w with
    | None => []
    | Some pb =>
        if is_state_change_failure (Bt4.play_ret w) then []
        else filter is_seek
               (trace_of (Bt4.event_loop (Bt4.bus_of w) (Bt4.turns w)
                            (Bt4.initial_data pb)))
    end.
Proof.
  unfold Bt4.run_trace. rewrite bt4_main_eq.
  destruct (Bt4.playbin_made w) as [pb|]; [|reflexivity].
  destruct (is_state_change_failure (Bt4.play_ret w)); [reflexivity|].
  cbv zeta. destruct (Bt4.terminate _); unfold trace_of at 1; cbn [snd];
    unfold bt4_setup, bt4_teardown; cbn [app filter is_seek];
    [rewrite filter_app; cbn [filter is_seek]; rewrite app_nil_r|]; reflexivity.
Qed.

(** C1: in every run of bt4 at most one seek is requested, and from a
    state in which seek_done is set the loop requests none, however many
    turns follow and whatever positions they observe. *)
Theorem bt4_at_most_one_seek :
  (forall w : Bt4.session, (count is_seek (Bt4.run_trace w) <= 1)%nat) /\
  (forall (bus : GstObject) (its : list Bt4.iteration) (d : Bt4.CustomData),
     Bt4.seek_done d = true ->
     count is_seek (trace_of (Bt4.event_loop bus its d)) = 0%nat /\
     Bt4.seek_done (state_of (Bt4.event_loop bus its d)) = true).
Proof.
  split.
  - intros w. unfold count. rewrite bt4_run_seeks.
    destruct (Bt4.playbin_made w) as [pb|]; [|cbn; lia].
    destruct (is_state_change_failure (Bt4.play_ret w)); [cbn; lia|].
    pose proof (event_loop_seek_account (Bt4.bus_of w) (Bt4.turns w)
                  (Bt4.initial_data pb)) as H.
    cbv zeta in H. unfold count in H.
    destruct (Bt4.seek_done (state_of _)); cbn [flag] in H; lia.
  - intros bus its d Hd.
    pose proof (event_loop_seek_account bus its d) as H. cbv zeta in H.
    rewrite Hd in H.
    destruct (Bt4.seek_done (state_of _)); cbn [flag] in H; split;
      solve [lia | reflexivity].
Qed.

(** *** bt4: when the seek fires *)

Lemma handle_message_seek_enabled (sk : option (bool * Z * Z)) (m : GstMessage)
    (d : Bt4.CustomData) :
  Bt4.seek_enabled d = false ->
  (announces_playing (Bt4.playbin d) m = true ->
   forall start stop, sk <> Some (true, start, stop)) ->
  Bt4.seek_enabled (state_of (Bt4.handle_message sk m d)) = false.
Proof.
  intros Hd Hsk. unfold Bt4.handle_message. unfold announces_playing in Hsk.
  destruct d as [pb pl te se sd du]. cbn in Hd, Hsk. subst se.
  destruct (msg_body m); exec_prog; try reflexivity.
  exfalso. eapply Hsk; reflexivity.
Qed.

Lemma handle_message_playbin (sk : option (bool * Z * Z)) (m : GstMessage)
    (d : Bt4.CustomData) :
  Bt4.playbin (state_of (Bt4.handle_message sk m d)) = Bt4.playbin d.
Proof.
  unfold Bt4.handle_message. destruct d as [pb pl te se sd du].
  destruct (msg_body m); exec_prog; reflexivity.
Qed.

Lemma loop_body_playbin (bus : GstObject) (it : Bt4.iteration) (d : Bt4.CustomData) :
  Bt4.playbin (state_of (Bt4.loop_body bus it d)) = Bt4.playbin d.
Proof.
  rewrite loop_body_eq. cbv zeta. rewrite state_of_mk.
  destruct (Bt4.popped it) as [m|].
  - apply handle_message_playbin.
  - destruct (Bt4.playing d) eqn:Hp.
    + rewrite on_timeout_state by assumption. reflexivity.
    + rewrite on_timeout_idle by assumption. reflexivity.
Qed.

Lemma loop_body_seek_disabled (bus : GstObject) (it : Bt4.iteration)
    (d : Bt4.CustomData) :
  Bt4.seek_enabled d = false ->
  (enters_playing (Bt4.playbin d) it = true ->
   forall start stop, Bt4.seeking_reply it <> Some (true, start, stop)) ->
  filter is_seek (trace_of (Bt4.loop_body bus it d)) = [] /\
  Bt4.seek_enabled (state_of (Bt4.loop_body bus it d)) = false.
Proof.
  intros Hd Hsk. rewrite loop_body_eq. cbv zeta.
  cbn [state_of trace_of fst snd filter is_seek].
  unfold enters_playing in Hsk.
  destruct (Bt4.popped it) as [m|].
  - split.
    + apply handle_message_no_seek.
    + apply handle_message_seek_enabled; assumption.
  - fold (trace_of (Bt4.on_timeout it d)). fold (state_of (Bt4.on_timeout it d)).
    destruct (Bt4.playing d) eqn:Hp.
    + rewrite on_timeout_seeks, on_timeout_state by assumption.
      unfold seek_due. rewrite Hd. split; reflexivity.
    + rewrite on_timeout_idle by assumption. split; [reflexivity | exact Hd].
Qed.

Lemma event_loop_seek_disabled (bus : GstObject) (its : list Bt4.iteration) :
  forall d : Bt4.CustomData,
    Bt4.seek_enabled d = false ->
    (forall it start stop,
       In it its -> enters_playing (Bt4.playbin d) it = true ->
       Bt4.seeking_reply it <> Some (true, start, stop)) ->
    filter is_seek (trace_of (Bt4.event_loop bus its d)) = [].
Proof.
  induction its as [|it rest IH]; intros d Hd Hits.
  - reflexivity.
  - rewrite event_loop_cons. cbv zeta.
    destruct (loop_body_seek_disabled bus it d Hd) as [Ht Hs].
    { intros He start stop. apply Hits; [left; reflexivity | exact He]. }
    destruct (Bt4.terminate _).
    + exact Ht.
    + rewrite trace_of_mk, filter_app, Ht. cbn [app].
      apply IH; [exact Hs|]. rewrite loop_body_playbin.
      intros it' start stop Hin. apply Hits. right. exact Hin.
Qed.

(** C2: on a polling turn with playing set, a seek is requested exactly
    when seek_enabled is set, seek_done is clear and the position query
    answered a position above 10 s; the request is then the only one of
    the turn, goes to 30 s with the flush and key-unit flags, and leaves
    seek_done set.  With seek_enabled clear the turn requests no seek, and
    a run none of whose seeking queries answered "enabled" (each
    failed or answered "disabled") requests none. *)
Theorem bt4_seek_condition (it : Bt4.iteration) (d : Bt4.CustomData) :
  Bt4.playing d = true ->
  let r := Bt4.on_timeout it d in
  let flags := Z.lor GST_SEEK_FLAG_FLUSH GST_SEEK_FLAG_KEY_UNIT in
  (filter is_seek (trace_of r) <> [] <->
     Bt4.seek_enabled d = true /\ Bt4.seek_done d = false /\
     exists p, Bt4.position_reply it = Some p /\ 10 * GST_SECOND < p) /\
  (filter is_seek (trace_of r) <> [] ->
     filter is_seek (trace_of r) =
       [Ev_seek_simple (Bt4.playbin d) GST_FORMAT_TIME flags (30 * GST_SECOND)] /\
     Z.testbit flags 0 = true /\ Z.testbit flags 2 = true /\ flags = 5 /\
     30 * GST_SECOND = 30000000000 /\
     Bt4.seek_done (state_of r) = true) /\
  (Bt4.seek_enabled d = false -> filter is_seek (trace_of r) = []) /\
  (forall w : Bt4.session,
     seeking_never_enabled w -> filter is_seek (Bt4.run_trace w) = []).
Proof.
  intros Hp r flags. subst r flags.
  rewrite on_timeout_seeks, on_timeout_state by assumption.
  cbn [Bt4.seek_done]. unfold seek_due, current_of, the_seek.
  split; [split | split; [| split]].
  - intros Hne.
    destruct (Bt4.seek_enabled d); [|exfalso; apply Hne; reflexivity].
    destruct (Bt4.seek_done d); [exfalso; apply Hne; reflexivity|].
    split; [reflexivity | split; [reflexivity|]].
    destruct (Bt4.position_reply it) as [p|].
    + exists p. split; [reflexivity|].
      destruct (10 * GST_SECOND <? p) eqn:E; [|exfalso; apply Hne; reflexivity].
      apply Z.ltb_lt. exact E.
    + exfalso. apply Hne. reflexivity.
  - intros (He & Hd & p & Hpos & Hlt). rewrite He, Hd, Hpos.
    apply Z.ltb_lt in Hlt. rewrite Hlt. discriminate.
  - destruct (_ && _ && _); [|intros Hne; exfalso; apply Hne; reflexivity].
    intros _. rewrite orb_true_r. repeat split.
  - intros He. rewrite He. reflexivity.
  - intros w Hw. rewrite bt4_run_seeks. unfold seeking_never_enabled in Hw.
    destruct (Bt4.playbin_made w) as [pb|]; [|reflexivity].
    destruct (is_state_change_failure (Bt4.play_ret w)); [reflexivity|].
    apply event_loop_seek_disabled; [reflexivity|].
    intros it' start stop Hin He. apply (Hw pb); [reflexivity | exact Hin | exact He].
Qed.

(** *** bt4: a failed position query *)

(** C7 (amended): on a polling turn with playing set whose position query
    fails, the failure is logged right after the query, terminate is left
    as it was, no seek is requested, and the session state changes in the
    cached duration at most; main keeps no position from one turn to the
    next, and the position shown for the turn is -1, the value [current]
    is initialised with, which is not a valid clock time. *)
Theorem bt4_failed_position_query (it : Bt4.iteration) (d : Bt4.CustomData) :
  Bt4.playing d = true ->
  Bt4.position_reply it = None ->
  let r := Bt4.on_timeout it d in
  (exists rest,
     trace_of r =
       Ev_query_position (Bt4.playbin d) GST_FORMAT_TIME None
       :: Ev_printerr "Could not query current position.\n" [] :: rest) /\
  Bt4.terminate (state_of r) = Bt4.terminate d /\
  filter is_seek (trace_of r) = [] /\
  state_of r = Bt4.set_duration (duration_after it d) d /\
  reported_position (trace_of r) = Some (-1) /\
  GST_CLOCK_TIME_IS_VALID (-1) = false.
Proof.
  intros Hp Hq r. subst r.
  assert (Hdue : seek_due it d = false).
  { unfold seek_due, current_of. rewrite Hq, ten_seconds_after_failure.
    apply andb_false_r. }
  rewrite on_timeout_seeks, on_timeout_state, Hdue by assumption.
  split; [|split; [reflexivity | split; [reflexivity | split; [|split; [|reflexivity]]]]].
  - unfold Bt4.on_timeout. destruct d as [pb pl te se sd du]. cbn in Hp. subst pl.
    destruct it as [po pr dr sk]. cbn in Hq. subst pr.
    cbn [Bt4.position_reply Bt4.duration_reply]. exec_prog; eexists; reflexivity.
  - destruct d as [pb pl te se sd du]. cbn in Hp. subst pl.
    unfold Bt4.set_duration. cbn. rewrite orb_false_r. reflexivity.
  - unfold Bt4.on_timeout. destruct d as [pb pl te se sd du]. cbn in Hp. subst pl.
    destruct it as [po pr dr sk]. cbn in Hq. subst pr.
    cbn [Bt4.position_reply Bt4.duration_reply]. exec_prog; reflexivity.
Qed.

(** *** bt4: state-changed messages *)

(** C9: a state-changed message that does not come from the playbin
    leaves the whole session state as it was; handling it releases the
    message and does nothing else. *)
Theorem bt4_foreign_state_change (sk : option (bool * Z * Z)) (m : GstMessage)
    (d : Bt4.CustomData) (old_state new_state pending_state : GstState) :
  msg_body m = MsgStateChanged old_state new_state pending_state ->
  ptr_eqb (msg_src m) (Bt4.playbin d) = false ->
  Bt4.handle_message sk m d = (tt, d, [Ev_message_unref m]).
Proof.
  intros Hb Hsrc. unfold Bt4.handle_message. rewrite Hb. run_prog.
  rewrite Hsrc. reflexivity.
Qed.

Lemma loop_body_idle (bus : GstObject) (it : Bt4.iteration) (d : Bt4.CustomData) :
  Bt4.playing d = false ->
  enters_playing (Bt4.playbin d) it = false ->
  let r := Bt4.loop_body bus it d in
  filter is_position_query (trace_of r) = [] /\
  filter is_seek (trace_of r) = [] /\
  Bt4.playing (state_of r) = false /\
  Bt4.playbin (state_of r) = Bt4.playbin d.
Proof.
  intros Hp He. cbv zeta. rewrite loop_body_eq. cbv zeta.
  cbn [state_of trace_of fst snd filter is_seek is_position_query].
  unfold enters_playing, announces_playing in He.
  destruct (Bt4.popped it) as [m|].
  - fold (trace_of (Bt4.handle_message (Bt4.seeking_reply it) m d)).
    rewrite handle_message_no_seek, handle_message_no_position_query.
    split; [reflexivity | split; [reflexivity|]].
    unfold Bt4.handle_message. destruct d as [pb pl te se sd du].
    cbn in Hp, He. subst pl.
    destruct (msg_body m); exec_prog; try (split; reflexivity); discriminate.
  - rewrite on_timeout_idle by assumption. repeat split. exact Hp.
Qed.

Lemma event_loop_idle (bus : GstObject) (its : list Bt4.iteration) :
  forall d : Bt4.CustomData,
    Bt4.playing d = false ->
    forallb (fun it => negb (enters_playing (Bt4.playbin d) it)) its = true ->
    let r := Bt4.event_loop bus its d in
    filter is_position_query (trace_of r) = [] /\ filter is_seek (trace_of r) = [].
Proof.
  induction its as [|it rest IH]; intros d Hp Hits; cbv zeta.
  - split; reflexivity.
  - cbn [forallb] in Hits. apply andb_true_iff in Hits. destruct Hits as [Hit Hrest].
    apply negb_true_iff in Hit.
    destruct (loop_body_idle bus it d Hp Hit) as (Hq & Hs & Hp' & Hpb).
    rewrite event_loop_cons. cbv zeta.
    destruct (Bt4.terminate _).
    + split; assumption.
    + rewrite !trace_of_mk, !filter_app, Hq, Hs. cbn [app].
      apply IH; [exact Hp'|]. rewrite Hpb. exact Hrest.
Qed.

(** C10: after a state-changed message of the playbin the playing flag is
    exactly (new state == PLAYING).  A new state other than PLAYING clears
    it, and then polling turns do nothing, and the loop asks for no
    position and no seek for as long as no such message enters PLAYING
    again.  Every message entering PLAYING issues one seeking query,
    whatever the flags were before, and a query that succeeds overwrites
    seek_enabled with its answer (one that fails leaves it as it was). *)
Theorem bt4_playing_flag (sk : option (bool * Z * Z)) (m : GstMessage)
    (d : Bt4.CustomData) (old_state new_state pending_state : GstState) :
  msg_body m = MsgStateChanged old_state new_state pending_state ->
  ptr_eqb (msg_src m) (Bt4.playbin d) = true ->
  let r := Bt4.handle_message sk m d in
  Bt4.playing (state_of r) = GstState_eqb new_state GST_STATE_PLAYING /\
  (new_state <> GST_STATE_PLAYING ->
     Bt4.playing (state_of r) = false /\
     filter is_seeking_query (trace_of r) = [] /\
     (forall it, Bt4.on_timeout it (state_of r) = (tt, state_of r, [])) /\
     (forall bus its,
        forallb (fun it => negb (enters_playing (Bt4.playbin d) it)) its = true ->
        let l := Bt4.event_loop bus its (state_of r) in
        filter is_position_query (trace_of l) = [] /\
        filter is_seek (trace_of l) = [])) /\
  (new_state = GST_STATE_PLAYING ->
     Bt4.playing (state_of r) = true /\
     filter is_seeking_query (trace_of r) =
       [Ev_query_seeking (Bt4.playbin d) GST_FORMAT_TIME sk] /\
     Bt4.seek_enabled (state_of r) =
       match sk with
       | Some (enabled, _, _) => enabled
       | None => Bt4.seek_enabled d
       end).
Proof.
  intros Hb Hsrc r.
  assert (Hplay : Bt4.playing (state_of r) = GstState_eqb new_state GST_STATE_PLAYING).
  { subst r. unfold Bt4.handle_message. rewrite Hb.
    destruct d as [pb pl te se sd du]. cbn in Hsrc. exec_prog; try reflexivity.
    all: congruence. }
  assert (Hpb : Bt4.playbin (state_of r) = Bt4.playbin d).
  { subst r. unfold Bt4.handle_message. rewrite Hb.
    destruct d as [pb pl te se sd du]. cbn in Hsrc. exec_prog; reflexivity. }
  split; [exact Hplay | split].
  - intros Hn.
    assert (Hoff : GstState_eqb new_state GST_STATE_PLAYING = false).
    { destruct new_state; try reflexivity. exfalso. apply Hn. reflexivity. }
    rewrite Hoff in Hplay.
    split; [exact Hplay | split; [| split]].
    + subst r. unfold Bt4.handle_message. rewrite Hb.
      destruct d as [pb pl te se sd du]. cbn in Hsrc. run_prog.
      rewrite Hsrc. run_prog. rewrite Hoff. reflexivity.
    + intros it. apply on_timeout_idle. exact Hplay.
    + intros bus its Hits. apply event_loop_idle; [exact Hplay|].
      rewrite Hpb. exact Hits.
  - intros Hn. subst new_state. cbn in Hplay.
    split; [exact Hplay|].
    subst r. unfold Bt4.handle_message. rewrite Hb.
    destruct d as [pb pl te se sd du]. cbn in Hsrc. run_prog.
    rewrite Hsrc. run_prog.
    destruct sk as [[[[] start] stop]|]; split; reflexivity.
Qed.

(** *** Release of bus messages *)

Lemma discipline_skip (t1 t2 : trace) :
  message_free t1 = true ->
  forall h, message_discipline h (t1 ++ t2) = message_discipline h t2.
Proof.
  induction t1 as [|e t1 IH]; intros Hfree h.
  - reflexivity.
  - cbn [message_free forallb] in Hfree. apply andb_true_iff in Hfree.
    destruct Hfree as [He Hfree]. specialize (IH Hfree).
    destruct e; try (cbn [app message_discipline]; apply IH); try discriminate He.
    destruct res; [discriminate He|]. cbn [app message_discipline]. apply IH.
Qed.

Lemma discipline_turn (bus : GstObject) (timeout : Z) (f : list GstMessageType)
    (m : GstMessage) (handling rest : trace) :
  message_free handling = true ->
  message_discipline None
    (Ev_bus_pop bus timeout f (Some m) :: (handling ++ [Ev_message_unref m]) ++ rest)
  = message_discipline None rest.
Proof.
  intros Hfree. cbn [message_discipline]. rewrite <- app_assoc.
  rewrite discipline_skip by assumption.
  cbn [app message_discipline]. rewrite N.eqb_refl. reflexivity.
Qed.

Ltac split_last :=
  match goal with
  | |- exists h, ?t = h ++ [_] /\ _ => exists (removelast t); split; reflexivity
  end.

Lemma bt2_parse_message_shape (m : GstMessage) :
  exists handling,
    trace_of (Bt2.parse_message m tt) = handling ++ [Ev_message_unref m] /\
    message_free handling = true.
Proof.
  unfold Bt2.parse_message. destruct (msg_body m); run_prog; split_last.
Qed.

Lemma bt3_parse_message_shape (data : Bt3.CustomData) (m : GstMessage) (t : bool) :
  exists handling,
    trace_of (Bt3.parse_message data m t) = handling ++ [Ev_message_unref m] /\
    message_free handling = true.
Proof.
  unfold Bt3.parse_message. destruct (msg_body m); exec_prog; split_last.
Qed.

Lemma bt4_handle_message_shape (sk : option (bool * Z * Z)) (m : GstMessage)
    (d : Bt4.CustomData) :
  exists handling,
    trace_of (Bt4.handle_message sk m d) = handling ++ [Ev_message_unref m] /\
    message_free handling = true.
Proof.
  unfold Bt4.handle_message. destruct d as [pb pl te se sd du].
  destruct (msg_body m); exec_prog; split_last.
Qed.

Lemma bt4_on_timeout_message_free (it : Bt4.iteration) (d : Bt4.CustomData) :
  message_free (trace_of (Bt4.on_timeout it d)) = true.
Proof.
  unfold Bt4.on_timeout. destruct d as [pb pl te se sd du].
  destruct it as [po pr dr sk]. cbn [Bt4.position_reply Bt4.duration_reply].
  exec_prog; reflexivity.
Qed.

Lemma bt2_discipline (w : Bt2.session) :
  message_discipline None (Bt2.run_trace w) = true.
Proof.
  unfold Bt2.run_trace, Bt2.main.
  destruct w as [[src|] [snk|] [pl|] [|] ret bus po nret];
    cbn [Bt2.source_made Bt2.sink_made Bt2.pipeline_made Bt2.link_ok Bt2.play_ret
         Bt2.bus_of Bt2.popped Bt2.null_ret]; run_prog; try reflexivity.
  destruct (is_state_change_failure ret); [reflexivity|].
  destruct po as [m|]; [|reflexivity].
  destruct (bt2_parse_message_shape m) as (handling & Ht & Hfree).
  destruct (Bt2.parse_message m tt) as [[[] []] t]. rewrite trace_of_mk in Ht. subst t.
  cbn [message_discipline].
  exact (discipline_turn bus GST_CLOCK_TIME_NONE Bt2.bus_filter m handling _ Hfree).
Qed.

Lemma bt3_event_loop_cons (data : Bt3.CustomData) (bus : GstObject)
    (a : option GstMessage) (rest : list (option GstMessage)) (t : bool) :
  let pop := Ev_bus_pop bus GST_CLOCK_TIME_NONE Bt3.bus_filter a in
  let r1 := bt3_answer data a t in
  Bt3.event_loop data bus (a :: rest) t =
    if state_of r1 then (tt, true, pop :: trace_of r1)
    else let r2 := Bt3.event_loop data bus rest false in
         (tt, state_of r2, pop :: trace_of r1 ++ trace_of r2).
Proof.
  cbn [Bt3.event_loop]. unfold bt3_answer. run_prog.
  destruct a as [m|].
  - destruct (Bt3.parse_message data m t) as [[[] t1] tr1]. run_prog.
    destruct t1.
    + rewrite app_nil_r. reflexivity.
    + destruct (Bt3.event_loop data bus rest false) as [[[] t2] tr2]. reflexivity.
  - run_prog. destruct t.
    + reflexivity.
    + destruct (Bt3.event_loop data bus rest false) as [[[] t2] tr2]. reflexivity.
Qed.

Lemma bt3_loop_discipline (data : Bt3.CustomData) (bus : GstObject)
    (answers : list (option GstMessage)) :
  forall (t : bool) (rest : trace),
    message_discipline None (trace_of (Bt3.event_loop data bus answers t) ++ rest)
    = message_discipline None rest.
Proof.
  induction answers as [|a answers IH]; intros t rest.
  - reflexivity.
  - rewrite bt3_event_loop_cons. cbv zeta.
    assert (Hturn : forall tail,
      message_discipline None
        (Ev_bus_pop bus GST_CLOCK_TIME_NONE Bt3.bus_filter a
           :: trace_of (bt3_answer data a t) ++ tail)
      = message_discipline None tail).
    { intros tail. destruct a as [m|].
      - cbn [bt3_answer].
        destruct (bt3_parse_message_shape data m t) as (handling & Ht & Hfree).
        rewrite Ht. apply discipline_turn. exact Hfree.
      - reflexivity. }
    destruct (state_of (bt3_answer data a t)).
    + rewrite trace_of_mk. cbn [app]. apply Hturn.
    + rewrite trace_of_mk. cbn [app]. rewrite <- app_assoc, Hturn. apply IH.
Qed.

Lemma bt3_discipline (w : Bt3.session) :
  message_discipline None (Bt3.run_trace w) = true.
Proof.
  unfold Bt3.run_trace, Bt3.main.
  destruct w as [[src|] [conv|] [res|] [snk|] [pl|] [|] ret bus po nret];
    cbn [Bt3.source_made Bt3.convert_made Bt3.resample_made Bt3.sink_made
         Bt3.pipeline_made Bt3.link_ok Bt3.play_ret Bt3.bus_of Bt3.pops Bt3.null_ret];
    run_prog; try reflexivity.
  destruct (is_state_change_failure ret); [reflexivity|].
  pose proof (bt3_loop_discipline (Bt3.mkData pl src conv res snk) bus po false) as H.
  destruct (Bt3.event_loop _ bus po false) as [[[] t] tr]. run_prog.
  destruct t; cbn [snd app message_discipline]; rewrite ?app_nil_r.
  - apply H.
  - rewrite <- (app_nil_r tr). apply H.
Qed.

Lemma bt4_loop_discipline (bus : GstObject) (its : list Bt4.iteration) :
  forall (d : Bt4.CustomData) (rest : trace),
    message_discipline None (trace_of (Bt4.event_loop bus its d) ++ rest)
    = message_discipline None rest.
Proof.
  induction its as [|it its IH]; intros d rest.
  - reflexivity.
  - rewrite event_loop_cons. cbv zeta.
    assert (Hturn : forall tail,
      message_discipline None (trace_of (Bt4.loop_body bus it d) ++ tail)
      = message_discipline None tail).
    { intros tail. rewrite loop_body_eq. cbv zeta. rewrite trace_of_mk.
      destruct (Bt4.popped it) as [m|].
      - destruct (bt4_handle_message_shape (Bt4.seeking_reply it) m d)
          as (handling & Ht & Hfree).
        rewrite Ht. apply discipline_turn. exact Hfree.
      - cbn [app message_discipline]. apply discipline_skip.
        apply bt4_on_timeout_message_free. }
    destruct (Bt4.terminate _).
    + rewrite trace_of_mk. apply Hturn.
    + rewrite trace_of_mk, <- app_assoc, Hturn. apply IH.
Qed.

Lemma bt4_discipline (w : Bt4.session) :
  message_discipline None (Bt4.run_trace w) = true.
Proof.
  unfold Bt4.run_trace. rewrite bt4_main_eq.
  destruct (Bt4.playbin_made w) as [pb|]; [|reflexivity].
  destruct (is_state_change_failure (Bt4.play_ret w)); [reflexivity|].
  cbv zeta. destruct (Bt4.terminate _); rewrite trace_of_mk;
    unfold bt4_setup; cbn [app message_discipline].
  - apply bt4_loop_discipline.
  - rewrite <- (app_nil_r (trace_of _)). apply bt4_loop_discipline.
Qed.

(** C6: in the three programs every message popped from the bus is
    released exactly once, before the next pop and before the program
    ends; in each dispatch the release is the last step, after whatever
    the branch taken did, and no branch releases the message itself. *)
Theorem every_message_released_once :
  (forall w, message_discipline None (Bt2.run_trace w) = true) /\
  (forall w, message_discipline None (Bt3.run_trace w) = true) /\
  (forall w, message_discipline None (Bt4.run_trace w) = true) /\
  (forall m, exists handling,
     trace_of (Bt2.parse_message m tt) = handling ++ [Ev_message_unref m] /\
     message_free handling = true) /\
  (forall data m t, exists handling,
     trace_of (Bt3.parse_message data m t) = handling ++ [Ev_message_unref m] /\
     message_free handling = true) /\
  (forall sk m d, exists handling,
     trace_of (Bt4.handle_message sk m d) = handling ++ [Ev_message_unref m] /\
     message_free handling = true).
Proof.
  repeat split.
  - apply bt2_discipline.
  - apply bt3_discipline.
  - apply bt4_discipline.
  - apply bt2_parse_message_shape.
  - apply bt3_parse_message_shape.
  - apply bt4_handle_message_shape.
Qed.

(** *** Exit codes *)

Lemma bt2_exit_code (w : Bt2.session) :
  Bt2.exit_code w = if bt2_construction_fails w then -1 else 0.
Proof.
  unfold Bt2.exit_code, Bt2.main, bt2_construction_fails.
  destruct w as [[src|] [snk|] [pl|] [|] ret bus po nret];
    cbn [Bt2.source_made Bt2.sink_made Bt2.pipeline_made Bt2.link_ok Bt2.play_ret
         Bt2.bus_of Bt2.popped Bt2.null_ret absent]; run_prog; try reflexivity.
  destruct (is_state_change_failure ret); [reflexivity|].
  destruct po as [m|]; [|reflexivity].
  destruct (Bt2.parse_message m tt) as [[[] []] t]. reflexivity.
Qed.

Lemma bt3_parse_message_flag (data : Bt3.CustomData) (m : GstMessage) (t : bool) :
  state_of (Bt3.parse_message data m t) = t || ends_loop (Some m).
Proof.
  unfold Bt3.parse_message, ends_loop.
  destruct (msg_body m); exec_prog; rewrite ?orb_true_r, ?orb_false_r; reflexivity.
Qed.

Lemma bt3_event_loop_flag (data : Bt3.CustomData) (bus : GstObject)
    (answers : list (option GstMessage)) :
  state_of (Bt3.event_loop data bus answers false) = existsb ends_loop answers.
Proof.
  induction answers as [|a answers IH].
  - reflexivity.
  - rewrite bt3_event_loop_cons. cbv zeta. cbn [existsb].
    assert (H : state_of (bt3_answer data a false) = ends_loop a).
    { destruct a as [m|]; [apply bt3_parse_message_flag | reflexivity]. }
    rewrite H. destruct (ends_loop a); [reflexivity|]. rewrite state_of_mk. exact IH.
Qed.

Lemma bt3_exit_code (w : Bt3.session) :
  Bt3.exit_code w =
    if bt3_construction_fails w then Some (-1)
    else if existsb ends_loop (Bt3.pops w) then Some 0 else None.
Proof.
  unfold Bt3.exit_code, Bt3.main, bt3_construction_fails.
  destruct w as [[src|] [conv|] [res|] [snk|] [pl|] [|] ret bus po nret];
    cbn [Bt3.source_made Bt3.convert_made Bt3.resample_made Bt3.sink_made
         Bt3.pipeline_made Bt3.link_ok Bt3.play_ret Bt3.bus_of Bt3.pops Bt3.null_ret
         absent];
    run_prog; try reflexivity.
  destruct (is_state_change_failure ret); [reflexivity|].
  pose proof (bt3_event_loop_flag (Bt3.mkData pl src conv res snk) bus po) as H.
  destruct (Bt3.event_loop _ bus po false) as [[[] t] tr]. run_prog.
  rewrite <- H. destruct t; reflexivity.
Qed.

Lemma bt4_loop_body_flag (bus : GstObject) (it : Bt4.iteration) (d : Bt4.CustomData) :
  Bt4.terminate (state_of (Bt4.loop_body bus it d)) =
    Bt4.terminate d || ends_loop (Bt4.popped it).
Proof.
  rewrite loop_body_eq. cbv zeta. rewrite state_of_mk.
  destruct (Bt4.popped it) as [m|].
  - unfold Bt4.handle_message, ends_loop. destruct d as [pb pl te se sd du].
    destruct (msg_body m); exec_prog; rewrite ?orb_true_r, ?orb_false_r; reflexivity.
  - cbn [ends_loop]. rewrite orb_false_r. destruct (Bt4.playing d) eqn:Hp.
    + rewrite on_timeout_state by assumption. reflexivity.
    + rewrite on_timeout_idle by assumption. reflexivity.
Qed.

Lemma bt4_event_loop_flag (bus : GstObject) (its : list Bt4.iteration) :
  forall d : Bt4.CustomData,
    Bt4.terminate d = false ->
    Bt4.terminate (state_of (Bt4.event_loop bus its d)) =
      existsb (fun it => ends_loop (Bt4.popped it)) its.
Proof.
  induction its as [|it its IH]; intros d Hd.
  - exact Hd.
  - rewrite event_loop_cons. cbv zeta. cbn [existsb].
    pose proof (bt4_loop_body_flag bus it d) as H. rewrite Hd in H. cbn [orb] in H.
    rewrite H. destruct (ends_loop (Bt4.popped it)) eqn:E.
    + rewrite state_of_mk. exact H.
    + rewrite state_of_mk. apply IH. exact H.
Qed.

Lemma bt4_exit_code (w : Bt4.session) :
  Bt4.exit_code w =
    if bt4_construction_fails w then Some (-1)
    else if existsb (fun it => ends_loop (Bt4.popped it)) (Bt4.turns w)
         then Some 0 else None.
Proof.
  unfold Bt4.exit_code, bt4_construction_fails. rewrite bt4_main_eq.
  destruct (Bt4.playbin_made w) as [pb|]; [|reflexivity]. cbn [absent orb].
  destruct (is_state_change_failure (Bt4.play_ret w)); [reflexivity|].
  cbv zeta. rewrite bt4_event_loop_flag by reflexivity.
  destruct (existsb _ _); reflexivity.
Qed.

(** C8: each program returns -1 exactly when construction fails (an
    element or the pipeline is NULL, the static link fails, or the change
    to PLAYING returns failure), and otherwise returns 0 once its event
    loop ends: bt2 after its one wait on the bus, bt3 and bt4 as soon as
    an error or end-of-stream message has been popped (and not before). *)
Theorem exit_codes :
  (forall w, Bt2.exit_code w = if bt2_construction_fails w then -1 else 0) /\
  (forall w, Bt3.exit_code w =
     if bt3_construction_fails w then Some (-1)
     else if existsb ends_loop (Bt3.pops w) then Some 0 else None) /\
  (forall w, Bt4.exit_code w =
     if bt4_construction_fails w then Some (-1)
     else if existsb (fun it => ends_loop (Bt4.popped it)) (Bt4.turns w)
          then Some 0 else None).
Proof.
  split; [exact bt2_exit_code | split; [exact bt3_exit_code | exact bt4_exit_code]].
Qed.

(** *** Construction failures and the objects left alive *)

(** Failure after the elements were added to the pipeline: the pipeline is
    released, and the elements with it. *)
Lemma bt2_rollback_after_add (w : Bt2.session) (pl src snk : GstObject) :
  Bt2.pipeline_made w = Some pl ->
  Bt2.source_made w = Some src ->
  Bt2.sink_made w = Some snk ->
  ptr_eqb pl src = false ->
  ptr_eqb pl snk = false ->
  Bt2.link_ok w = false \/ Bt2.play_ret w = GST_STATE_CHANGE_FAILURE ->
  Bt2.exit_code w = -1 /\ live_objects (Bt2.run_trace w) = [].
Proof.
  intros Hpl Hsrc Hsnk Hps Hpk Hfail.
  unfold Bt2.exit_code, Bt2.run_trace, Bt2.main. rewrite Hpl, Hsrc, Hsnk.
  assert (Hpp : ptr_eqb pl pl = true) by apply N.eqb_refl.
  assert (Hss : ptr_eqb src src = true) by apply N.eqb_refl.
  assert (Hkk : ptr_eqb snk snk = true) by apply N.eqb_refl.
  destruct (Bt2.link_ok w) eqn:Hl; run_prog.
  - destruct Hfail as [Hf|Hf]; [discriminate|]. rewrite Hf. run_prog.
    split; [reflexivity|].
    unfold live_objects, heap_after.
    repeat progress (cbn -[ptr_eqb]; unfold release, adopt, acquire;
                     rewrite ?Hps, ?Hpk, ?Hkk, ?Hss, ?Hpp).
    reflexivity.
  - split; [reflexivity|].
    unfold live_objects, heap_after.
    repeat progress (cbn -[ptr_eqb]; unfold release, adopt, acquire;
                     rewrite ?Hps, ?Hpk, ?Hkk, ?Hss, ?Hpp).
    reflexivity.
Qed.

Lemma bt4_rollback (w : Bt4.session) (pb : GstObject) :
  Bt4.playbin_made w = Some pb ->
  Bt4.play_ret w = GST_STATE_CHANGE_FAILURE ->
  Bt4.exit_code w = Some (-1) /\ live_objects (Bt4.run_trace w) = [].
Proof.
  intros Hpb Hf. unfold Bt4.exit_code, Bt4.run_trace. rewrite bt4_main_eq, Hpb, Hf.
  split; [reflexivity|].
  assert (Hpp : ptr_eqb pb pb = true) by apply N.eqb_refl.
  unfold live_objects, heap_after, bt4_setup. rewrite Hpb.
  repeat progress (cbn -[ptr_eqb]; unfold release, adopt, acquire; rewrite ?Hpp).
  reflexivity.
Qed.

(** C3 (the run on which the claim fails): in bt2, when the source comes
    back NULL while the sink and the pipeline were created, main returns
    -1 without a single gst_object_unref, and the pipeline and the sink
    are still alive when it returns. *)
Theorem bt2_null_source_leaks (w : Bt2.session) (pl snk : GstObject) :
  Bt2.source_made w = None ->
  Bt2.sink_made w = Some snk ->
  Bt2.pipeline_made w = Some pl ->
  Bt2.exit_code w = -1 /\
  filter is_object_unref (Bt2.run_trace w) = [] /\
  live_objects (Bt2.run_trace w) = [pl; snk].
Proof.
  intros Hsrc Hsnk Hpl.
  unfold Bt2.exit_code, Bt2.run_trace, Bt2.main. rewrite Hpl, Hsrc, Hsnk.
  run_prog. repeat split.
Qed.

(** The same early return in bt3 leaves every created object alive. *)
Lemma bt3_null_source_leaks (w : Bt3.session) (pl conv res snk : GstObject) :
  Bt3.source_made w = None ->
  Bt3.convert_made w = Some conv ->
  Bt3.resample_made w = Some res ->
  Bt3.sink_made w = Some snk ->
  Bt3.pipeline_made w = Some pl ->
  Bt3.exit_code w = Some (-1) /\
  filter is_object_unref (Bt3.run_trace w) = [] /\
  live_objects (Bt3.run_trace w) = [pl; snk; res; conv].
Proof.
  intros Hsrc Hconv Hres Hsnk Hpl.
  unfold Bt3.exit_code, Bt3.run_trace, Bt3.main. rewrite Hpl, Hsrc, Hconv, Hres, Hsnk.
  run_prog. repeat split.
Qed.

Lemma bt3_rollback_after_add (w : Bt3.session) (pl src conv res snk : GstObject) :
  Bt3.pipeline_made w = Some pl ->
  Bt3.source_made w = Some src ->
  Bt3.convert_made w = Some conv ->
  Bt3.resample_made w = Some res ->
  Bt3.sink_made w = Some snk ->
  ptr_eqb pl src = false -> ptr_eqb pl conv = false ->
  ptr_eqb pl res = false -> ptr_eqb pl snk = false ->
  Bt3.link_ok w = false \/ Bt3.play_ret w = GST_STATE_CHANGE_FAILURE ->
  Bt3.exit_code w = Some (-1) /\ live_objects (Bt3.run_trace w) = [].
Proof.
  intros Hpl Hsrc Hconv Hres Hsnk H1 H2 H3 H4 Hfail.
  unfold Bt3.exit_code, Bt3.run_trace, Bt3.main.
  rewrite Hpl, Hsrc, Hconv, Hres, Hsnk.
  assert (Hpp : ptr_eqb pl pl = true) by apply N.eqb_refl.
  assert (Hss : ptr_eqb src src = true) by apply N.eqb_refl.
  assert (Hcc : ptr_eqb conv conv = true) by apply N.eqb_refl.
  assert (Hrr : ptr_eqb res res = true) by apply N.eqb_refl.
  assert (Hkk : ptr_eqb snk snk = true) by apply N.eqb_refl.
  destruct (Bt3.link_ok w) eqn:Hl; run_prog.
  - destruct Hfail as [Hf|Hf]; [discriminate|]. rewrite Hf. run_prog.
    split; [reflexivity|].
    unfold live_objects, heap_after.
    repeat progress (cbn -[ptr_eqb]; unfold release, adopt, acquire;
                     rewrite ?H1, ?H2, ?H3, ?H4, ?Hpp, ?Hss, ?Hcc, ?Hrr, ?Hkk).
    reflexivity.
  - split; [reflexivity|].
    unfold live_objects, heap_after.
    repeat progress (cbn -[ptr_eqb]; unfold release, adopt, acquire;
                     rewrite ?H1, ?H2, ?H3, ?H4, ?Hpp, ?Hss, ?Hcc, ?Hrr, ?Hkk).
    reflexivity.
Qed.

(** *** bt3: the pad-added handler *)

Lemma pad_added_handler_linked (src : GstObject) (new_pad : GstPad)
    (data : Bt3.CustomData) (reply : GstPadLinkReturn) (w : Bt3.pads) :
  Bt3.convert_sink_peer w <> None ->
  Bt3.pad_added_handler src new_pad data reply w = (tt, w, bt3_ignored src new_pad data w).
Proof.
  intros Hpeer. unfold Bt3.pad_added_handler, bt3_ignored, bt3_received.
  destruct w as [sink_pad [peer|]]; [|exfalso; apply Hpeer; reflexivity].
  run_prog. reflexivity.
Qed.

(** The handler links only a pad whose current caps exist and whose first
    structure is named with the prefix audio/x-raw. *)
Lemma pad_added_handler_links_audio_only (src : GstObject) (new_pad : GstPad)
    (data : Bt3.CustomData) (reply : GstPadLinkReturn) (w : Bt3.pads) :
  filter is_pad_link (trace_of (Bt3.pad_added_handler src new_pad data reply w)) <> [] ->
  exists c s rest,
    pad_current_caps new_pad = Some c /\
    caps_structures c = s :: rest /\
    String.prefix "audio/x-raw" (structure_name s) = true.
Proof.
  unfold Bt3.pad_added_handler.
  destruct w as [sink_pad [peer|]]; run_prog.
  - intros H. exfalso. apply H. reflexivity.
  - destruct (pad_current_caps new_pad) as [[cp [|s rest]]|]; cbn [nth_error caps_structures];
      run_prog; try (intros H; exfalso; apply H; reflexivity).
    destruct (String.prefix "audio/x-raw" (structure_name s)) eqn:E; run_prog.
    + intros _. exists (mkCaps cp (s :: rest)), s, rest. repeat split. exact E.
    + intros H. exfalso. apply H. reflexivity.
Qed.

(** C4 (the run on which the claim fails): with the sink pad not linked
    and no current caps on the new pad, the handler makes no link, but it
    hands the NULL caps to gst_caps_get_structure, the NULL structure to
    gst_structure_get_name and the NULL name to g_str_has_prefix, each
    call failing its argument check, and prints the NULL name with %s. *)
Theorem pad_added_handler_null_caps (src : GstObject) (new_pad : GstPad)
    (data : Bt3.CustomData) (reply : GstPadLinkReturn) (w : Bt3.pads) :
  Bt3.convert_sink_peer w = None ->
  pad_current_caps new_pad = None ->
  Bt3.pad_added_handler src new_pad data reply w =
    (tt, w,
     [Ev_get_static_pad (Bt3.convert data) "sink" (Bt3.convert_sink w);
      bt3_received src new_pad;
      Ev_pad_is_linked (Bt3.convert_sink w) false;
      Ev_pad_get_current_caps (pad_obj new_pad) None;
      Ev_critical "gst_caps_get_structure" "GST_IS_CAPS (caps)";
      Ev_critical "gst_structure_get_name" "structure != NULL";
      Ev_critical "g_str_has_prefix" "str != NULL";
      Ev_print "It has type '%s' which is not raw audio. Ignoring.\n" [A_str None];
      Ev_object_unref (Bt3.convert_sink w)]).
Proof.
  intros Hpeer Hcaps. unfold Bt3.pad_added_handler, bt3_received.
  destruct w as [sink_pad peer]. cbn in Hpeer. subst peer.
  run_prog. rewrite Hcaps. run_prog. reflexivity.
Qed.

Lemma pad_added_signals_linked (src : GstObject) (data : Bt3.CustomData)
    (calls : list (GstPad * GstPadLinkReturn)) (w : Bt3.pads) :
  Bt3.convert_sink_peer w <> None ->
  Bt3.pad_added_signals src data calls w =
    (tt, w, flat_map (fun c => bt3_ignored src (fst c) data w) calls).
Proof.
  intros Hpeer. induction calls as [|[new_pad reply] calls IH].
  - reflexivity.
  - cbn [Bt3.pad_added_signals flat_map fst]. unfold bind.
    rewrite pad_added_handler_linked by assumption. rewrite IH. reflexivity.
Qed.

(** C5: once the converter's sink pad is linked, any number of further
    pad-added signals leaves the link state as it was and calls
    gst_pad_link not once; each invocation takes the sink pad, prints the
    received-pad line and "We are already linked. Ignoring.", and drops
    the sink pad again, whatever the new pad is. *)
Theorem pad_added_handler_idempotent (src : GstObject) (data : Bt3.CustomData)
    (calls : list (GstPad * GstPadLinkReturn)) (w : Bt3.pads) (n : nat) :
  Bt3.convert_sink_peer w <> None ->
  List.length calls = n ->
  (1 <= n)%nat ->
  let r := Bt3.pad_added_signals src data calls w in
  state_of r = w /\
  count is_pad_link (trace_of r) = 0%nat /\
  trace_of r = flat_map (fun c => bt3_ignored src (fst c) data w) calls /\
  count (fun e => match e with
                  | Ev_print fmt _ => String.eqb fmt "We are already linked. Ignoring.\n"
                  | _ => false
                  end) (trace_of r) = n.
Proof.
  intros Hpeer Hn _ r. subst r n. rewrite pad_added_signals_linked by assumption.
  rewrite state_of_mk, trace_of_mk. repeat split.
  - induction calls as [|c calls IH]; [reflexivity|].
    cbn [flat_map]. rewrite count_app, IH. reflexivity.
  - induction calls as [|c calls IH]; [reflexivity|].
    cbn [flat_map List.length]. rewrite count_app, IH. reflexivity.
Qed.

(** ** The statements at concrete runs *)

(** After the seek, turns at 31 s and 45 s request no seek. *)
Lemma bt4_at_most_one_seek_run :
  count is_seek
    (trace_of (Bt4.event_loop Sample.bus
                 [Sample.tick (Some 31000000000); Sample.tick (Some 45000000000)]
                 Sample.seeked_data)) = 0%nat.
Proof.
  apply (proj2 bt4_at_most_one_seek Sample.bus
           [Sample.tick (Some 31000000000); Sample.tick (Some 45000000000)]
           Sample.seeked_data).
  reflexivity.
Defined.

(** At 11 s, with seeking enabled and no seek done, the one seek fires. *)
Lemma bt4_seek_condition_run :
  filter is_seek
    (trace_of (Bt4.on_timeout (Sample.tick (Some 11000000000)) Sample.playing_data))
  = [Ev_seek_simple Sample.playbin GST_FORMAT_TIME 5 30000000000].
Proof.
  destruct (bt4_seek_condition (Sample.tick (Some 11000000000)) Sample.playing_data
              eq_refl) as (Hiff & Hshape & _).
  apply Hshape. apply Hiff.
  split; [reflexivity | split; [reflexivity|]].
  exists 11000000000. split; [reflexivity | reflexivity].
Defined.

(** C7 as stated fails: a turn at 5 s is followed by a turn whose position
    query fails; the second turn shows -1, not the 5 s known before, and
    -1 is not a valid clock time. *)
Lemma bt4_failed_query_shows_sentinel :
  let first := Bt4.on_timeout (Sample.tick (Some 5000000000)) Sample.playing_data in
  let second := Bt4.on_timeout (Sample.tick None) (state_of first) in
  reported_position (trace_of first) = Some 5000000000 /\
  reported_position (trace_of second) = Some (-1) /\
  reported_position (trace_of second) <> Some 5000000000 /\
  GST_CLOCK_TIME_IS_VALID (-1) = false.
Proof.
  cbv zeta. repeat split; try reflexivity.
  vm_compute. discriminate.
Qed.

Lemma bt4_failed_position_query_run :
  reported_position
    (trace_of (Bt4.on_timeout (Sample.tick None) Sample.playing_data)) = Some (-1).
Proof.
  apply (bt4_failed_position_query (Sample.tick None) Sample.playing_data eq_refl eq_refl).
Defined.

Lemma bt4_foreign_state_change_run :
  Bt4.handle_message None Sample.decoder_paused Sample.playing_data =
    (tt, Sample.playing_data, [Ev_message_unref Sample.decoder_paused]).
Proof.
  apply (bt4_foreign_state_change None Sample.decoder_paused Sample.playing_data
           GST_STATE_READY GST_STATE_PAUSED GST_STATE_VOID_PENDING);
    reflexivity.
Defined.

(** Entering PLAYING with a query answering "disabled" clears seek_enabled. *)
Lemma bt4_playing_flag_run :
  Bt4.seek_enabled
    (state_of (Bt4.handle_message (Some (false, 0, 0)) Sample.to_playing
                 Sample.playing_data)) = false.
Proof.
  destruct (bt4_playing_flag (Some (false, 0, 0)) Sample.to_playing Sample.playing_data
              GST_STATE_PAUSED GST_STATE_PLAYING GST_STATE_VOID_PENDING
              eq_refl eq_refl) as (_ & _ & Hon).
  apply Hon. reflexivity.
Defined.

Lemma bt2_null_source_leaks_run :
  Bt2.exit_code Sample.no_source = -1 /\
  filter is_object_unref (Bt2.run_trace Sample.no_source) = [] /\
  live_objects (Bt2.run_trace Sample.no_source) = [Sample.pipeline; Sample.sink].
Proof.
  apply (bt2_null_source_leaks Sample.no_source Sample.pipeline Sample.sink);
    reflexivity.
Defined.

Lemma pad_added_handler_null_caps_run :
  filter is_critical
    (trace_of (Bt3.pad_added_handler Sample.source Sample.pad_without_caps
                 Sample.bt3_data GST_PAD_LINK_OK Sample.unlinked))
  = [Ev_critical "gst_caps_get_structure" "GST_IS_CAPS (caps)";
     Ev_critical "gst_structure_get_name" "structure != NULL";
     Ev_critical "g_str_has_prefix" "str != NULL"].
Proof.
  rewrite (pad_added_handler_null_caps Sample.source Sample.pad_without_caps
             Sample.bt3_data GST_PAD_LINK_OK Sample.unlinked eq_refl eq_refl).
  reflexivity.
Defined.

(** Three more signals on a linked converter: nothing changes. *)
Lemma pad_added_handler_idempotent_run :
  state_of
    (Bt3.pad_added_signals Sample.source Sample.bt3_data
       [(Sample.audio_pad, GST_PAD_LINK_OK); (Sample.video_pad, GST_PAD_LINK_OK);
        (Sample.pad_without_caps, GST_PAD_LINK_OK)] Sample.linked) = Sample.linked.
Proof.
  apply (pad_added_handler_idempotent Sample.source Sample.bt3_data
           [(Sample.audio_pad, GST_PAD_LINK_OK); (Sample.video_pad, GST_PAD_LINK_OK);
            (Sample.pad_without_caps, GST_PAD_LINK_OK)] Sample.linked 3%nat).
  - discriminate.
  - reflexivity.
  - lia.
Defined.

(** The eighth scenario of the specification: a video pad is declined, the
    audio pad that follows is linked, and a later pad is ignored. *)
Example video_then_audio_then_ignored :
  let r := Bt3.pad_added_signals Sample.source Sample.bt3_data
             [(Sample.video_pad, GST_PAD_LINK_OK); (Sample.audio_pad, GST_PAD_LINK_OK);
              (Sample.video_pad, GST_PAD_LINK_OK)] Sample.unlinked in
  filter is_pad_link (trace_of r) =
    [Ev_pad_link (pad_obj Sample.audio_pad) Sample.convert_sink_pad GST_PAD_LINK_OK] /\
  Bt3.convert_sink_peer (state_of r) = Some (pad_obj Sample.audio_pad).
Proof. split; reflexivity. Qed.

(** The ninth scenario: at 11 s one seek to 30 s fires, at 31 s none. *)
Example seek_once_then_never :
  let r := Bt4.event_loop Sample.bus
             [Sample.tick (Some 11000000000); Sample.tick (Some 31000000000)]
             Sample.playing_data in
  filter is_seek (trace_of r) =
    [Ev_seek_simple Sample.playbin GST_FORMAT_TIME 5 30000000000].
Proof. reflexivity. Qed.

(** The sixth scenario: the stream ends; exit code 0, nothing on stderr,
    nothing left alive. *)
Example plays_to_end_of_stream :
  Bt2.exit_code Sample.plays_to_eos = 0 /\
  filter is_printerr (Bt2.run_trace Sample.plays_to_eos) = [] /\
  live_objects (Bt2.run_trace Sample.plays_to_eos) = [].
Proof. repeat split. Qed.

(** The seventh scenario: the static link fails; exit code -1, PLAYING is
    never requested, nothing left alive. *)
Example incompatible_elements :
  Bt2.exit_code Sample.incompatible = -1 /\
  filter is_play_request (Bt2.run_trace Sample.incompatible) = [] /\
  live_objects (Bt2.run_trace Sample.incompatible) = [].
Proof. repeat split. Qed.

(** * Further properties of the programs *)

(** ** bt4: the cached duration *)

Lemma on_timeout_duration_queries (it : Bt4.iteration) (d : Bt4.CustomData) :
  Bt4.playing d = true ->
  filter is_duration_query (trace_of (Bt4.on_timeout it d)) =
    if GST_CLOCK_TIME_IS_VALID (Bt4.duration d) then []
    else [Ev_query_duration (Bt4.playbin d) GST_FORMAT_TIME (Bt4.duration_reply it)].
Proof.
  intros Hp. unfold Bt4.on_timeout.
  destruct d as [pb pl te se sd du]; simpl in Hp; subst pl.
  destruct it as [po [p|] [q|] sk], se, sd; cbn [Bt4.position_reply Bt4.duration_reply];
    exec_prog; reflexivity.
Qed.

Lemma handle_message_no_duration_query (sk : option (bool * Z * Z)) (m : GstMessage)
    (d : Bt4.CustomData) :
  filter is_duration_query (trace_of (Bt4.handle_message sk m d)) = [].
Proof.
  unfold Bt4.handle_message. destruct d as [pb pl te se sd du].
  destruct (msg_body m); exec_prog; reflexivity.
Qed.

Lemma handle_message_duration (sk : option (bool * Z * Z)) (m : GstMessage)
    (d : Bt4.CustomData) :
  Bt4.duration (state_of (Bt4.handle_message sk m d)) =
    if is_duration_message (Some m) then -1 else Bt4.duration d.
Proof.
  unfold Bt4.handle_message, is_duration_message. destruct d as [pb pl te se sd du].
  destruct (msg_body m); exec_prog; reflexivity.
Qed.

Lemma loop_body_duration_known (bus : GstObject) (it : Bt4.iteration)
    (d : Bt4.CustomData) :
  GST_CLOCK_TIME_IS_VALID (Bt4.duration d) = true ->
  is_duration_message (Bt4.popped it) = false ->
  filter is_duration_query (trace_of (Bt4.loop_body bus it d)) = [] /\
  Bt4.duration (state_of (Bt4.loop_body bus it d)) = Bt4.duration d.
Proof.
  intros Hv Hm. rewrite loop_body_eq. cbv zeta. rewrite trace_of_mk, state_of_mk.
  cbn [filter is_duration_query].
  destruct (Bt4.popped it) as [m|].
  - rewrite handle_message_no_duration_query, handle_message_duration, Hm.
    split; reflexivity.
  - destruct (Bt4.playing d) eqn:Hp.
    + rewrite on_timeout_duration_queries, on_timeout_state by assumption.
      unfold duration_after. rewrite Hv. split; reflexivity.
    + rewrite on_timeout_idle by assumption. split; reflexivity.
Qed.

Lemma event_loop_duration_known (bus : GstObject) (its : list Bt4.iteration) :
  forall d : Bt4.CustomData,
    GST_CLOCK_TIME_IS_VALID (Bt4.duration d) = true ->
    forallb (fun it => negb (is_duration_message (Bt4.popped it))) its = true ->
    filter is_duration_query (trace_of (Bt4.event_loop bus its d)) = [] /\
    Bt4.duration (state_of (Bt4.event_loop bus its d)) = Bt4.duration d.
Proof.
  induction its as [|it rest IH]; intros d Hv Hits.
  - split; reflexivity.
  - cbn [forallb] in Hits. apply andb_true_iff in Hits. destruct Hits as [Hit Hrest].
    apply negb_true_iff in Hit.
    destruct (loop_body_duration_known bus it d Hv Hit) as [Hq Hd].
    rewrite event_loop_cons. cbv zeta.
    destruct (Bt4.terminate _).
    + rewrite trace_of_mk, state_of_mk. split; assumption.
    + rewrite trace_of_mk, state_of_mk, filter_app, Hq. cbn [app].
      rewrite <- Hd in Hv. destruct (IH _ Hv Hrest) as [Hq' Hd'].
      split; [exact Hq' | congruence].
Qed.

(** The duration is asked for on a polling turn exactly while the cached
    value is not a valid clock time: an answer is cached, a failure leaves
    the cache invalid so that the next turn asks again.  A duration
    message invalidates the cache.  While the cache is valid and no
    duration message arrives, the loop never asks and the cache keeps its
    value. *)
Theorem bt4_duration_cache :
  (forall it d, Bt4.playing d = true ->
     filter is_duration_query (trace_of (Bt4.on_timeout it d)) =
       (if GST_CLOCK_TIME_IS_VALID (Bt4.duration d) then []
        else [Ev_query_duration (Bt4.playbin d) GST_FORMAT_TIME (Bt4.duration_reply it)]) /\
     Bt4.duration (state_of (Bt4.on_timeout it d)) =
       (if GST_CLOCK_TIME_IS_VALID (Bt4.duration d) then Bt4.duration d
        else match Bt4.duration_reply it with
             | Some x => x
             | None => Bt4.duration d
             end)) /\
  (forall sk m d, msg_body m = MsgDuration ->
     GST_CLOCK_TIME_IS_VALID (Bt4.duration (state_of (Bt4.handle_message sk m d))) = false) /\
  (forall bus its d,
     GST_CLOCK_TIME_IS_VALID (Bt4.duration d) = true ->
     forallb (fun it => negb (is_duration_message (Bt4.popped it))) its = true ->
     filter is_duration_query (trace_of (Bt4.event_loop bus its d)) = [] /\
     Bt4.duration (state_of (Bt4.event_loop bus its d)) = Bt4.duration d).
Proof.
  split; [|split].
  - intros it d Hp. split.
    + apply on_timeout_duration_queries. exact Hp.
    + rewrite on_timeout_state by assumption. reflexivity.
  - intros sk m d Hm. rewrite handle_message_duration.
    unfold is_duration_message. rewrite Hm. reflexivity.
  - intros bus its d. apply event_loop_duration_known.
Qed.

Lemma bt4_duration_cache_run :
  filter is_duration_query
    (trace_of (Bt4.event_loop Sample.bus
                 [Sample.tick (Some 1000000000); Runs.message Sample.decoder_paused;
                  Sample.tick None]
                 Sample.playing_data)) = [].
Proof.
  apply (proj2 (proj2 bt4_duration_cache) Sample.bus
           [Sample.tick (Some 1000000000); Runs.message Sample.decoder_paused;
            Sample.tick None] Sample.playing_data); reflexivity.
Defined.

(** ** bt4: what a polling turn asks and logs *)

(** A turn of the loop asks for the position, and prints the progress
    line, exactly when the wait on the bus timed out while playing is
    set; the line then shows what the query left in [current]. *)
Theorem bt4_polls_only_while_playing (bus : GstObject) (it : Bt4.iteration)
    (d : Bt4.CustomData) :
  let t := trace_of (Bt4.loop_body bus it d) in
  let polling := absent (Bt4.popped it) && Bt4.playing d in
  filter is_position_query t =
    (if polling
     then [Ev_query_position (Bt4.playbin d) GST_FORMAT_TIME (Bt4.position_reply it)]
     else []) /\
  reported_position t = (if polling then Some (current_of it) else None).
Proof.
  cbv zeta. rewrite loop_body_eq. cbv zeta. rewrite trace_of_mk.
  cbn [filter is_position_query reported_position].
  destruct (Bt4.popped it) as [m|]; cbn [absent andb].
  - split; [apply handle_message_no_position_query|].
    unfold Bt4.handle_message. destruct d as [pb pl te se sd du].
    destruct (msg_body m); exec_prog; reflexivity.
  - destruct (Bt4.playing d) eqn:Hp.
    + unfold Bt4.on_timeout, current_of.
      destruct d as [pb pl te se sd du]; simpl in Hp; subst pl.
      destruct it as [po [p|] [q|] sk], se, sd;
        cbn [Bt4.position_reply Bt4.duration_reply]; exec_prog; split; reflexivity.
    + rewrite on_timeout_idle by assumption. split; reflexivity.
Qed.

(** On a polling turn every failed query is logged on stderr once, and
    nothing else is: the position query when it fails, the duration query
    when it was due and fails.  Neither failure sets terminate. *)
Theorem bt4_tick_logs_each_failure (it : Bt4.iteration) (d : Bt4.CustomData) :
  Bt4.playing d = true ->
  filter is_printerr (trace_of (Bt4.on_timeout it d)) =
    (if absent (Bt4.position_reply it)
     then [Ev_printerr "Could not query current position.\n" []] else [])
    ++ (if negb (GST_CLOCK_TIME_IS_VALID (Bt4.duration d)) && absent (Bt4.duration_reply it)
        then [Ev_printerr "Could not query current duration.\n" []] else []) /\
  Bt4.terminate (state_of (Bt4.on_timeout it d)) = Bt4.terminate d.
Proof.
  intros Hp. split; [|rewrite on_timeout_state by assumption; reflexivity].
  unfold Bt4.on_timeout.
  destruct d as [pb pl te se sd du]; simpl in Hp; subst pl.
  destruct it as [po [p|] [q|] sk], se, sd;
    cbn [Bt4.position_reply Bt4.duration_reply absent]; exec_prog; reflexivity.
Qed.

Lemma bt4_tick_logs_each_failure_run :
  filter is_printerr (trace_of (Bt4.on_timeout (Sample.tick None) Runs.fresh_data)) =
    [Ev_printerr "Could not query current position.\n" [];
     Ev_printerr "Could not query current duration.\n" []].
Proof.
  apply (bt4_tick_logs_each_failure (Sample.tick None) Runs.fresh_data eq_refl).
Defined.

(** ** bt4: how the loop runs *)

Lemma handle_message_no_bus_pop (sk : option (bool * Z * Z)) (m : GstMessage)
    (d : Bt4.CustomData) :
  filter is_bus_pop (trace_of (Bt4.handle_message sk m d)) = [].
Proof.
  unfold Bt4.handle_message. destruct d as [pb pl te se sd du].
  destruct (msg_body m); exec_prog; reflexivity.
Qed.

Lemma on_timeout_no_bus_pop (it : Bt4.iteration) (d : Bt4.CustomData) :
  filter is_bus_pop (trace_of (Bt4.on_timeout it d)) = [].
Proof.
  unfold Bt4.on_timeout. destruct d as [pb pl te se sd du].
  destruct it as [po pr dr sk]. cbn [Bt4.position_reply Bt4.duration_reply].
  exec_prog; reflexivity.
Qed.

Lemma loop_body_bus_pops (bus : GstObject) (it : Bt4.iteration) (d : Bt4.CustomData) :
  filter is_bus_pop (trace_of (Bt4.loop_body bus it d)) =
    [Ev_bus_pop bus (100 * GST_MSECOND) Bt4.bus_filter (Bt4.popped it)].
Proof.
  rewrite loop_body_eq. cbv zeta. rewrite trace_of_mk. cbn [filter is_bus_pop].
  destruct (Bt4.popped it) as [m|];
    [rewrite handle_message_no_bus_pop | rewrite on_timeout_no_bus_pop]; reflexivity.
Qed.

Lemma event_loop_unit (bus : GstObject) (its : list Bt4.iteration) (d : Bt4.CustomData) :
  Bt4.event_loop bus its d =
    (tt, state_of (Bt4.event_loop bus its d), trace_of (Bt4.event_loop bus its d)).
Proof. destruct (Bt4.event_loop bus its d) as [[[] s] t]. reflexivity. Qed.

(** Running the loop on the answers [its1 ++ its2] is running it on
    [its1] and, unless that run ended with terminate set, going on with
    [its2] from the state reached. *)
Theorem bt4_event_loop_app (bus : GstObject) (its1 its2 : list Bt4.iteration) :
  forall d : Bt4.CustomData,
    Bt4.terminate d = false ->
    let r1 := Bt4.event_loop bus its1 d in
    Bt4.event_loop bus (its1 ++ its2) d =
      if Bt4.terminate (state_of r1) then r1
      else let r2 := Bt4.event_loop bus its2 (state_of r1) in
           (tt, state_of r2, trace_of r1 ++ trace_of r2).
Proof.
  induction its1 as [|it its1 IH]; intros d Hd; cbv zeta.
  - cbn [app]. change (Bt4.event_loop bus [] d) with (tt, d, @nil event).
    rewrite state_of_mk, trace_of_mk, Hd. cbn [app]. apply event_loop_unit.
  - cbn [app]. rewrite !event_loop_cons. cbv zeta.
    destruct (Bt4.terminate (state_of (Bt4.loop_body bus it d))) eqn:Ht.
    + rewrite state_of_mk, Ht. reflexivity.
    + rewrite (IH _ Ht). cbv zeta.
      destruct (Bt4.terminate (state_of (Bt4.event_loop bus its1 _))) eqn:Ht1;
        rewrite ?state_of_mk, ?trace_of_mk, ?Ht1, ?app_assoc; reflexivity.
Qed.

Lemma bt4_event_loop_app_run :
  Bt4.event_loop Sample.bus
    ([Sample.tick (Some 11000000000)] ++ [Runs.message Runs.eos; Sample.tick None])
    Sample.playing_data =
  (let r1 := Bt4.event_loop Sample.bus [Sample.tick (Some 11000000000)]
               Sample.playing_data in
   if Bt4.terminate (state_of r1) then r1
   else let r2 := Bt4.event_loop Sample.bus [Runs.message Runs.eos; Sample.tick None]
                    (state_of r1) in
        (tt, state_of r2, trace_of r1 ++ trace_of r2)).
Proof.
  apply (bt4_event_loop_app Sample.bus [Sample.tick (Some 11000000000)]
           [Runs.message Runs.eos; Sample.tick None] Sample.playing_data).
  reflexivity.
Defined.

(** The loop ends with the first error or end-of-stream message: the
    answers after it are never asked for, and the bus is popped once per
    turn up to and including that message. *)
Theorem bt4_loop_stops_at_first_end (bus : GstObject) (its : list Bt4.iteration) :
  forall d : Bt4.CustomData,
    Bt4.terminate d = false ->
    let played := through_first (fun it => ends_loop (Bt4.popped it)) its in
    Bt4.event_loop bus its d = Bt4.event_loop bus played d /\
    filter is_bus_pop (trace_of (Bt4.event_loop bus its d)) =
      map (fun it => Ev_bus_pop bus (100 * GST_MSECOND) Bt4.bus_filter (Bt4.popped it))
        played.
Proof.
  induction its as [|it its IH]; intros d Hd; cbv zeta.
  - split; reflexivity.
  - cbn [through_first].
    pose proof (bt4_loop_body_flag bus it d) as Hf. rewrite Hd in Hf. cbn [orb] in Hf.
    destruct (ends_loop (Bt4.popped it)) eqn:He.
    + rewrite !event_loop_cons. cbv zeta. rewrite Hf. split; [reflexivity|].
      rewrite trace_of_mk. cbn [map]. apply loop_body_bus_pops.
    + rewrite !event_loop_cons. cbv zeta. rewrite Hf.
      destruct (IH _ Hf) as [Heq Hpops]. cbv zeta in Heq, Hpops.
      split.
      * rewrite <- Heq. reflexivity.
      * rewrite trace_of_mk, filter_app, loop_body_bus_pops, Hpops. reflexivity.
Qed.

Lemma bt4_loop_stops_at_first_end_run :
  Bt4.event_loop Sample.bus
    [Sample.tick None; Runs.message Runs.eos; Sample.tick (Some 11000000000)]
    Sample.playing_data =
  Bt4.event_loop Sample.bus [Sample.tick None; Runs.message Runs.eos] Sample.playing_data.
Proof.
  apply (bt4_loop_stops_at_first_end Sample.bus
           [Sample.tick None; Runs.message Runs.eos; Sample.tick (Some 11000000000)]
           Sample.playing_data).
  reflexivity.
Defined.

(** ** bt4: seeking queries are released *)

Lemma handle_message_queries (sk : option (bool * Z * Z)) (m : GstMessage)
    (d : Bt4.CustomData) :
  let t := trace_of (Bt4.handle_message sk m d) in
  filter is_seeking_query t =
    (if announces_playing (Bt4.playbin d) m
     then [Ev_query_seeking (Bt4.playbin d) GST_FORMAT_TIME sk] else []) /\
  filter is_query_unref t =
    (if announces_playing (Bt4.playbin d) m then [Ev_query_unref] else []).
Proof.
  cbv zeta. unfold Bt4.handle_message, announces_playing.
  destruct d as [pb pl te se sd du]. cbn [Bt4.playbin].
  destruct (msg_body m); exec_prog; try (split; reflexivity); discriminate.
Qed.

Lemma on_timeout_no_queries (it : Bt4.iteration) (d : Bt4.CustomData) :
  filter is_seeking_query (trace_of (Bt4.on_timeout it d)) = [] /\
  filter is_query_unref (trace_of (Bt4.on_timeout it d)) = [].
Proof.
  unfold Bt4.on_timeout. destruct d as [pb pl te se sd du].
  destruct it as [po pr dr sk]. cbn [Bt4.position_reply Bt4.duration_reply].
  exec_prog; split; reflexivity.
Qed.

Lemma loop_body_query_balance (bus : GstObject) (it : Bt4.iteration)
    (d : Bt4.CustomData) :
  count is_seeking_query (trace_of (Bt4.loop_body bus it d)) =
    count is_query_unref (trace_of (Bt4.loop_body bus it d)) /\
  count is_seeking_query (trace_of (Bt4.loop_body bus it d)) =
    flag (enters_playing (Bt4.playbin d) it).
Proof.
  rewrite loop_body_eq. cbv zeta. rewrite trace_of_mk. unfold count, enters_playing.
  cbn [filter is_seeking_query is_query_unref].
  destruct (Bt4.popped it) as [m|].
  - destruct (handle_message_queries (Bt4.seeking_reply it) m d) as [Hq Hu].
    cbv zeta in Hq, Hu. rewrite Hq, Hu.
    destruct (announces_playing (Bt4.playbin d) m); split; reflexivity.
  - destruct (on_timeout_no_queries it d) as [Hq Hu]. rewrite Hq, Hu.
    split; reflexivity.
Qed.

Lemma event_loop_query_balance (bus : GstObject) (its : list Bt4.iteration) :
  forall d : Bt4.CustomData,
    count is_seeking_query (trace_of (Bt4.event_loop bus its d)) =
      count is_query_unref (trace_of (Bt4.event_loop bus its d)).
Proof.
  induction its as [|it its IH]; intros d.
  - reflexivity.
  - rewrite event_loop_cons. cbv zeta.
    destruct (loop_body_query_balance bus it d) as [Hb _].
    destruct (Bt4.terminate _).
    + rewrite trace_of_mk. exact Hb.
    + rewrite trace_of_mk, !count_app, Hb, IH. reflexivity.
Qed.

(** A turn makes a seeking query exactly when it pops a state-changed
    message of the playbin entering PLAYING, and in every run of main each
    seeking query made is matched by one gst_query_unref, whether the query
    succeeded or failed. *)
Theorem bt4_seeking_query_released :
  (forall bus it d,
     count is_seeking_query (trace_of (Bt4.loop_body bus it d)) =
       flag (enters_playing (Bt4.playbin d) it)) /\
  (forall w, count is_seeking_query (Bt4.run_trace w) =
             count is_query_unref (Bt4.run_trace w)).
Proof.
  split.
  - intros bus it d. apply loop_body_query_balance.
  - intros w. unfold Bt4.run_trace. rewrite bt4_main_eq.
    destruct (Bt4.playbin_made w) as [pb|]; [|reflexivity].
    destruct (is_state_change_failure (Bt4.play_ret w)); [reflexivity|].
    cbv zeta. unfold bt4_setup, bt4_teardown.
    destruct (Bt4.terminate _); rewrite trace_of_mk; cbn [app];
      unfold count; cbn [filter is_seeking_query is_query_unref];
      rewrite ?filter_app; cbn [filter is_seeking_query is_query_unref];
      rewrite ?app_nil_r; apply event_loop_query_balance.
Qed.

(** ** bt4: what a turn leaves alone *)

(** Whatever the bus delivers, a turn of the loop keeps the playbin, never
    clears terminate and never clears seek_done.  Handling a message
    leaves seek_done as it is; a timeout leaves playing, terminate and
    seek_enabled as they are. *)
Theorem bt4_turn_frame (bus : GstObject) (it : Bt4.iteration) (d : Bt4.CustomData) :
  let d' := state_of (Bt4.loop_body bus it d) in
  Bt4.playbin d' = Bt4.playbin d /\
  (Bt4.terminate d = true -> Bt4.terminate d' = true) /\
  (Bt4.seek_done d = true -> Bt4.seek_done d' = true) /\
  (Bt4.popped it <> None -> Bt4.seek_done d' = Bt4.seek_done d) /\
  (Bt4.popped it = None ->
     Bt4.playing d' = Bt4.playing d /\ Bt4.terminate d' = Bt4.terminate d /\
     Bt4.seek_enabled d' = Bt4.seek_enabled d).
Proof.
  cbv zeta. split; [apply loop_body_playbin|].
  split; [intros Ht; rewrite bt4_loop_body_flag, Ht; reflexivity|].
  split.
  { intros Hs. pose proof (loop_body_seek_account bus it d) as H. cbv zeta in H.
    rewrite Hs in H.
    destruct (Bt4.seek_done (state_of (Bt4.loop_body bus it d))); [reflexivity|].
    cbn [flag] in H. lia. }
  rewrite loop_body_eq. cbv zeta. rewrite state_of_mk.
  destruct (Bt4.popped it) as [m|]; split.
  - intros _. apply handle_message_seek_done.
  - discriminate.
  - intros H. exfalso. apply H. reflexivity.
  - intros _. destruct (Bt4.playing d) eqn:Hp.
    + rewrite on_timeout_state by assumption. repeat split.
    + rewrite on_timeout_idle by assumption. repeat split. exact Hp.
Qed.

Lemma bt4_turn_frame_run :
  Bt4.seek_done
    (state_of (Bt4.loop_body Sample.bus (Runs.message Runs.duration_changed)
                 Sample.seeked_data)) = true.
Proof.
  destruct (bt4_turn_frame Sample.bus (Runs.message Runs.duration_changed)
              Sample.seeked_data) as (_ & _ & Hdone & _).
  apply Hdone. reflexivity.
Defined.

(** ** bt3: what the pad-added handler decides *)

(** The handler calls gst_pad_link exactly when the converter's sink pad
    has no peer and the new pad has current caps whose first structure is
    named with the prefix audio/x-raw; the call links the new pad to that
    sink pad.  The sink pad gets the new pad as its peer when such a call
    succeeds, and keeps the peer it had in every other case, a refused
    link included. *)
Theorem pad_added_handler_decision (src : GstObject) (new_pad : GstPad)
    (data : Bt3.CustomData) (reply : GstPadLinkReturn) (w : Bt3.pads) :
  let r := Bt3.pad_added_handler src new_pad data reply w in
  let attempt := negb (sink_linked w) && pad_is_audio new_pad in
  filter is_pad_link (trace_of r) =
    (if attempt then [Ev_pad_link (pad_obj new_pad) (Bt3.convert_sink w) reply] else []) /\
  state_of r =
    (if attempt && negb (GST_PAD_LINK_FAILED reply)
     then Bt3.mkPads (Bt3.convert_sink w) (Some (pad_obj new_pad))
     else w).
Proof.
  cbv zeta. unfold Bt3.pad_added_handler, sink_linked, pad_is_audio.
  destruct w as [sink_pad [peer|]]; run_prog.
  - split; reflexivity.
  - destruct (pad_current_caps new_pad) as [[cp [|s rest]]|];
      cbn [nth_error caps_structures]; run_prog; try (split; reflexivity).
    destruct (String.prefix "audio/x-raw" (structure_name s)); run_prog;
      [|split; reflexivity].
    destruct reply; run_prog; split; reflexivity.
Qed.

Ltac middle_of_trace :=
  match goal with
  | |- exists body, _ :: ?events = _ :: body ++ [_] /\ _ =>
      exists (removelast events); repeat split
  end.

(** On every path the handler drops the reference to the sink pad it took
    at entry, as its last step, and releases the caps of the new pad
    exactly when it obtained some: once after a declined pad, a failed
    link or a successful link, never when the converter was already
    linked or the pad had no caps. *)
Theorem pad_added_handler_cleanup (src : GstObject) (new_pad : GstPad)
    (data : Bt3.CustomData) (reply : GstPadLinkReturn) (w : Bt3.pads) :
  let t := trace_of (Bt3.pad_added_handler src new_pad data reply w) in
  (exists body,
     t = Ev_get_static_pad (Bt3.convert data) "sink" (Bt3.convert_sink w)
         :: body ++ [Ev_object_unref (Bt3.convert_sink w)] /\
     filter is_get_static_pad body = [] /\ filter is_object_unref body = []) /\
  filter is_caps_unref t =
    (if sink_linked w then []
     else match pad_current_caps new_pad with
          | Some c => [Ev_caps_unref c]
          | None => []
          end).
Proof.
  cbv zeta. unfold Bt3.pad_added_handler, sink_linked.
  destruct w as [sink_pad [peer|]]; run_prog.
  - split; [middle_of_trace | reflexivity].
  - destruct (pad_current_caps new_pad) as [[cp [|s rest]]|];
      cbn [nth_error caps_structures]; run_prog;
      try (split; [middle_of_trace | reflexivity]).
    destruct (String.prefix "audio/x-raw" (structure_name s)); run_prog;
      [|split; [middle_of_trace | reflexivity]].
    destruct reply; cbv [GST_PAD_LINK_FAILED]; run_prog;
      (split; [middle_of_trace | reflexivity]).
Qed.

Lemma pad_added_handler_link_account (src : GstObject) (new_pad : GstPad)
    (data : Bt3.CustomData) (reply : GstPadLinkReturn) (w : Bt3.pads) :
  let r := Bt3.pad_added_handler src new_pad data reply w in
  (count is_link_made (trace_of r) + flag (sink_linked w))%nat =
    flag (sink_linked (state_of r)).
Proof.
  cbv zeta. unfold Bt3.pad_added_handler, sink_linked.
  destruct w as [sink_pad [peer|]]; run_prog.
  - reflexivity.
  - destruct (pad_current_caps new_pad) as [[cp [|s rest]]|];
      cbn [nth_error caps_structures]; run_prog; try reflexivity.
    destruct (String.prefix "audio/x-raw" (structure_name s)); run_prog;
      [|reflexivity].
    destruct reply; run_prog; reflexivity.
Qed.

Lemma pad_added_signals_cons (src : GstObject) (data : Bt3.CustomData)
    (new_pad : GstPad) (reply : GstPadLinkReturn)
    (calls : list (GstPad * GstPadLinkReturn)) (w : Bt3.pads) :
  let r1 := Bt3.pad_added_handler src new_pad data reply w in
  let r2 := Bt3.pad_added_signals src data calls (state_of r1) in
  Bt3.pad_added_signals src data ((new_pad, reply) :: calls) w =
    (tt, state_of r2, trace_of r1 ++ trace_of r2).
Proof.
  cbv zeta. cbn [Bt3.pad_added_signals]. unfold bind.
  destruct (Bt3.pad_added_handler src new_pad data reply w) as [[[] w1] t1].
  rewrite state_of_mk, trace_of_mk.
  destruct (Bt3.pad_added_signals src data calls w1) as [[[] w2] t2]. reflexivity.
Qed.

(** Over any series of pad-added signals, whatever pads arrive and
    whatever the framework answers, the handler makes at most one link:
    exactly one if the converter starts unlinked and ends linked, none if
    it starts linked. *)
Theorem pad_added_signals_link_once (src : GstObject) (data : Bt3.CustomData)
    (calls : list (GstPad * GstPadLinkReturn)) :
  forall w : Bt3.pads,
    let r := Bt3.pad_added_signals src data calls w in
    (count is_link_made (trace_of r) + flag (sink_linked w))%nat =
      flag (sink_linked (state_of r)) /\
    (count is_link_made (trace_of r) <= 1)%nat.
Proof.
  induction calls as [|[new_pad reply] calls IH]; intros w; cbv zeta.
  - split; [reflexivity | cbn; lia].
  - rewrite pad_added_signals_cons. cbv zeta. rewrite state_of_mk, trace_of_mk.
    pose proof (pad_added_handler_link_account src new_pad data reply w) as H1.
    cbv zeta in H1.
    destruct (IH (state_of (Bt3.pad_added_handler src new_pad data reply w)))
      as [H2 _].
    rewrite count_app.
    assert (Hb : forall b, (flag b <= 1)%nat) by (intros []; cbn; lia).
    pose proof (Hb (sink_linked
      (state_of (Bt3.pad_added_signals src data calls
         (state_of (Bt3.pad_added_handler src new_pad data reply w)))))).
    split; lia.
Qed.

(** ** bt3: how the loop runs *)

Lemma bt3_parse_message_no_bus_pop (data : Bt3.CustomData) (m : GstMessage) (t : bool) :
  filter is_bus_pop (trace_of (Bt3.parse_message data m t)) = [].
Proof.
  unfold Bt3.parse_message. destruct (msg_body m); exec_prog; reflexivity.
Qed.

(** The loop of bt3 ends with the first error or end-of-stream message;
    state-changed messages and empty returns of the wait keep it going.
    The bus is popped once per turn up to and including that message and
    the answers after it are never asked for. *)
Theorem bt3_loop_stops_at_first_end (data : Bt3.CustomData) (bus : GstObject)
    (answers : list (option GstMessage)) :
  let played := through_first ends_loop answers in
  Bt3.event_loop data bus answers false = Bt3.event_loop data bus played false /\
  filter is_bus_pop (trace_of (Bt3.event_loop data bus answers false)) =
    map (Ev_bus_pop bus GST_CLOCK_TIME_NONE Bt3.bus_filter) played /\
  state_of (Bt3.event_loop data bus answers false) = existsb ends_loop answers.
Proof.
  cbv zeta. split; [|split; [|apply bt3_event_loop_flag]].
  - induction answers as [|a answers IH]; [reflexivity|].
    cbn [through_first].
    assert (H : state_of (bt3_answer data a false) = ends_loop a).
    { destruct a as [m|]; [apply bt3_parse_message_flag | reflexivity]. }
    destruct (ends_loop a) eqn:He.
    + rewrite !bt3_event_loop_cons. cbv zeta. rewrite H. reflexivity.
    + rewrite !bt3_event_loop_cons. cbv zeta. rewrite H, IH. reflexivity.
  - induction answers as [|a answers IH]; [reflexivity|].
    cbn [through_first].
    assert (H : state_of (bt3_answer data a false) = ends_loop a).
    { destruct a as [m|]; [apply bt3_parse_message_flag | reflexivity]. }
    assert (Hp : filter is_bus_pop (trace_of (bt3_answer data a false)) = []).
    { destruct a as [m|]; [apply bt3_parse_message_no_bus_pop | reflexivity]. }
    rewrite bt3_event_loop_cons. cbv zeta. rewrite H.
    destruct (ends_loop a) eqn:He; rewrite trace_of_mk; cbn [filter is_bus_pop map].
    + rewrite Hp. reflexivity.
    + rewrite filter_app, Hp, IH. reflexivity.
Qed.

(** ** What the event loops never do *)

Lemma bt2_parse_message_inside (m : GstMessage) :
  forallb inside_loop (trace_of (Bt2.parse_message m tt)) = true.
Proof. unfold Bt2.parse_message. destruct (msg_body m); run_prog; reflexivity. Qed.

Lemma bt3_parse_message_inside (data : Bt3.CustomData) (m : GstMessage) (t : bool) :
  forallb inside_loop (trace_of (Bt3.parse_message data m t)) = true.
Proof. unfold Bt3.parse_message. destruct (msg_body m); exec_prog; reflexivity. Qed.

Lemma bt3_event_loop_inside (data : Bt3.CustomData) (bus : GstObject)
    (answers : list (option GstMessage)) :
  forall t, forallb inside_loop (trace_of (Bt3.event_loop data bus answers t)) = true.
Proof.
  induction answers as [|a answers IH]; intros t.
  - reflexivity.
  - rewrite bt3_event_loop_cons. cbv zeta.
    assert (H : forallb inside_loop (trace_of (bt3_answer data a t)) = true).
    { destruct a as [m|]; [apply bt3_parse_message_inside | reflexivity]. }
    destruct (state_of (bt3_answer data a t)); rewrite trace_of_mk;
      cbn [forallb inside_loop andb]; rewrite ?forallb_app, H, ?IH; reflexivity.
Qed.

Lemma bt4_loop_body_inside (bus : GstObject) (it : Bt4.iteration) (d : Bt4.CustomData) :
  forallb inside_loop (trace_of (Bt4.loop_body bus it d)) = true.
Proof.
  rewrite loop_body_eq. cbv zeta. rewrite trace_of_mk. cbn [forallb inside_loop andb].
  destruct (Bt4.popped it) as [m|].
  - unfold Bt4.handle_message. destruct d as [pb pl te se sd du].
    destruct (msg_body m); exec_prog; reflexivity.
  - unfold Bt4.on_timeout. destruct d as [pb pl te se sd du].
    destruct it as [po pr dr sk]. cbn [Bt4.position_reply Bt4.duration_reply].
    exec_prog; reflexivity.
Qed.

Lemma bt4_event_loop_inside (bus : GstObject) (its : list Bt4.iteration) :
  forall d, forallb inside_loop (trace_of (Bt4.event_loop bus its d)) = true.
Proof.
  induction its as [|it its IH]; intros d.
  - reflexivity.
  - rewrite event_loop_cons. cbv zeta.
    pose proof (bt4_loop_body_inside bus it d) as H.
    destruct (Bt4.terminate _); rewrite trace_of_mk; [exact H|].
    rewrite forallb_app, H, IH. reflexivity.
Qed.

Lemma filter_outside (p q : event -> bool) (t : trace) :
  forallb q t = true ->
  (forall e, q e = true -> p e = false) ->
  filter p t = [].
Proof.
  intros Hq Hpq. induction t as [|e t IH]; [reflexivity|].
  cbn [forallb] in Hq. apply andb_true_iff in Hq. destruct Hq as [He Ht].
  cbn [filter]. rewrite (Hpq e He). apply IH. exact Ht.
Qed.

Lemma account_inside_loop (t : trace) :
  forallb inside_loop t = true -> forall h, fold_left account t h = h.
Proof.
  induction t as [|e t IH]; intros Hq h; [reflexivity|].
  cbn [forallb] in Hq. apply andb_true_iff in Hq. destruct Hq as [He Ht].
  cbn [fold_left]. rewrite IH by assumption.
  destruct e; try discriminate He; reflexivity.
Qed.


(** ** What is left alive when main returns *)

Lemma ptr_eqb_sym (a b : GstObject) : ptr_eqb a b = ptr_eqb b a.
Proof. apply N.eqb_sym. Qed.

Lemma ptr_eqb_refl (a : GstObject) : ptr_eqb a a = true.
Proof. apply N.eqb_refl. Qed.

Lemma state_change_failure (r : GstStateChangeReturn) :
  is_state_change_failure r = true -> r = GST_STATE_CHANGE_FAILURE.
Proof. destruct r; intros H; try discriminate H; reflexivity. Qed.

Ltac heap_run :=
  repeat progress (cbn -[ptr_eqb]; unfold release, adopt, acquire;
                   repeat match goal with
                          | H : ptr_eqb _ _ = _ |- _ => rewrite H
                          end;
                   rewrite ?ptr_eqb_refl).

(** Once bt2 has its pipeline, source and sink, nothing it created or
    obtained is alive when main returns, on any path: failed link, failed
    change to PLAYING, or the normal end after the wait on the bus. *)
Theorem bt2_releases_everything (w : Bt2.session) (pl src snk : GstObject) :
  Bt2.pipeline_made w = Some pl ->
  Bt2.source_made w = Some src ->
  Bt2.sink_made w = Some snk ->
  ptr_eqb pl src = false ->
  ptr_eqb pl snk = false ->
  ptr_eqb pl (Bt2.bus_of w) = false ->
  live_objects (Bt2.run_trace w) = [].
Proof.
  intros Hpl Hsrc Hsnk Hps Hpk Hpb.
  destruct (Bt2.link_ok w) eqn:Hl.
  2: { apply (bt2_rollback_after_add w pl src snk); auto. }
  destruct (is_state_change_failure (Bt2.play_ret w)) eqn:Hf.
  { apply (bt2_rollback_after_add w pl src snk); auto.
    right. apply state_change_failure. exact Hf. }
  assert (Hbp : ptr_eqb (Bt2.bus_of w) pl = false) by (rewrite ptr_eqb_sym; exact Hpb).
  unfold Bt2.run_trace, Bt2.main. rewrite Hpl, Hsrc, Hsnk, Hl. run_prog.
  rewrite Hf. run_prog.
  destruct (Bt2.popped w) as [m|].
  - pose proof (bt2_parse_message_inside m) as Hin.
    destruct (Bt2.parse_message m tt) as [[[] []] t]. run_prog.
    unfold live_objects, heap_after. cbn [fold_left].
    rewrite fold_left_app, (account_inside_loop t Hin). heap_run. reflexivity.
  - run_prog. unfold live_objects, heap_after. heap_run. reflexivity.
Qed.

Lemma bt2_releases_everything_run :
  live_objects (Bt2.run_trace Sample.plays_to_eos) = [] /\
  live_objects (Bt2.run_trace Runs.bt2_refused) = [].
Proof.
  split.
  - apply (bt2_releases_everything Sample.plays_to_eos Sample.pipeline Sample.source
             Sample.sink); reflexivity.
  - apply (bt2_releases_everything Runs.bt2_refused Sample.pipeline Sample.source
             Sample.sink); reflexivity.
Defined.

(** Once bt3 has its pipeline and its four elements, nothing it created or
    obtained is alive when main returns, on any path. *)
Theorem bt3_releases_everything (w : Bt3.session) (pl src conv res snk : GstObject)
    (code : Z) :
  Bt3.pipeline_made w = Some pl ->
  Bt3.source_made w = Some src ->
  Bt3.convert_made w = Some conv ->
  Bt3.resample_made w = Some res ->
  Bt3.sink_made w = Some snk ->
  ptr_eqb pl src = false -> ptr_eqb pl conv = false ->
  ptr_eqb pl res = false -> ptr_eqb pl snk = false ->
  ptr_eqb pl (Bt3.bus_of w) = false ->
  Bt3.exit_code w = Some code ->
  live_objects (Bt3.run_trace w) = [].
Proof.
  intros Hpl Hsrc Hconv Hres Hsnk H1 H2 H3 H4 Hpb Hexit.
  destruct (Bt3.link_ok w) eqn:Hl.
  2: { apply (bt3_rollback_after_add w pl src conv res snk); auto. }
  destruct (is_state_change_failure (Bt3.play_ret w)) eqn:Hf.
  { apply (bt3_rollback_after_add w pl src conv res snk); auto.
    right. apply state_change_failure. exact Hf. }
  assert (Hbp : ptr_eqb (Bt3.bus_of w) pl = false) by (rewrite ptr_eqb_sym; exact Hpb).
  revert Hexit. unfold Bt3.exit_code, Bt3.run_trace, Bt3.main.
  rewrite Hpl, Hsrc, Hconv, Hres, Hsnk, Hl. run_prog. rewrite Hf. run_prog.
  pose proof (bt3_event_loop_inside (Bt3.mkData pl src conv res snk) (Bt3.bus_of w)
                (Bt3.pops w) false) as Hin.
  destruct (Bt3.event_loop _ (Bt3.bus_of w) (Bt3.pops w) false) as [[[] t] tr]. run_prog.
  destruct t; cbn [fst snd]; [intros _ | discriminate].
  unfold live_objects, heap_after. cbn [fold_left app].
  rewrite fold_left_app, (account_inside_loop tr Hin). heap_run. reflexivity.
Qed.

Lemma bt3_releases_everything_run :
  live_objects (Bt3.run_trace Runs.bt3_plays) = [] /\
  live_objects (Bt3.run_trace Runs.bt3_unlinkable) = [].
Proof.
  split.
  - apply (bt3_releases_everything Runs.bt3_plays Sample.pipeline Sample.source
             Sample.convert Sample.resample Sample.sink 0); reflexivity.
  - apply (bt3_releases_everything Runs.bt3_unlinkable Sample.pipeline Sample.source
             Sample.convert Sample.resample Sample.sink (-1)); reflexivity.
Defined.

(** Whenever main of bt4 returns with its playbin created, nothing it
    created or obtained is alive: not after a failed change to PLAYING,
    not after the loop has ended. *)
Theorem bt4_releases_everything (w : Bt4.session) (pb : GstObject) (code : Z) :
  Bt4.playbin_made w = Some pb ->
  ptr_eqb (Bt4.bus_of w) pb = false ->
  Bt4.exit_code w = Some code ->
  live_objects (Bt4.run_trace w) = [].
Proof.
  intros Hpb Hbus. unfold Bt4.exit_code, Bt4.run_trace. rewrite bt4_main_eq, Hpb.
  destruct (is_state_change_failure (Bt4.play_ret w)) eqn:Hf.
  { intros _. rewrite trace_of_mk. unfold bt4_setup. rewrite Hpb.
    unfold live_objects, heap_after. heap_run. reflexivity. }
  cbv zeta.
  pose proof (bt4_event_loop_inside (Bt4.bus_of w) (Bt4.turns w) (Bt4.initial_data pb))
    as Hin.
  destruct (Bt4.terminate _); [intros _ | discriminate].
  rewrite trace_of_mk. unfold bt4_setup, bt4_teardown. rewrite Hpb.
  unfold live_objects, heap_after. cbn [fold_left app].
  rewrite fold_left_app, (account_inside_loop _ Hin). heap_run. reflexivity.
Qed.

Lemma bt4_releases_everything_run :
  live_objects (Bt4.run_trace Runs.bt4_plays) = [] /\
  live_objects (Bt4.run_trace Runs.bt4_refused) = [].
Proof.
  split.
  - apply (bt4_releases_everything Runs.bt4_plays Sample.playbin 0); reflexivity.
  - apply (bt4_releases_everything Runs.bt4_refused Sample.playbin (-1)); reflexivity.
Defined.

(** ** What construction does before the loop *)

Lemma bt2_parse_message_no_bus_pop (m : GstMessage) :
  filter is_bus_pop (trace_of (Bt2.parse_message m tt)) = [].
Proof. unfold Bt2.parse_message. destruct (msg_body m); run_prog; reflexivity. Qed.

Lemma inside_loop_no_play_request (t : trace) :
  forallb inside_loop t = true -> filter is_play_request t = [].
Proof.
  intros H. apply (filter_outside _ inside_loop); [exact H|].
  intros []; intros; try discriminate; reflexivity.
Qed.

Lemma inside_loop_no_get_bus (t : trace) :
  forallb inside_loop t = true -> filter is_get_bus t = [].
Proof.
  intros H. apply (filter_outside _ inside_loop); [exact H|].
  intros []; intros; try discriminate; reflexivity.
Qed.

(** The change to PLAYING is requested once in a run, after every object
    was created and the static link (bt2, bt3) was made, and not at all
    when an object is missing or the link fails; the event loops never
    request it again. *)
Theorem playing_is_requested_once :
  (forall w, count is_play_request (Bt2.run_trace w) =
     flag (negb (absent (Bt2.pipeline_made w) || absent (Bt2.source_made w)
                 || absent (Bt2.sink_made w) || negb (Bt2.link_ok w)))) /\
  (forall w, count is_play_request (Bt3.run_trace w) =
     flag (negb (absent (Bt3.pipeline_made w) || absent (Bt3.source_made w)
                 || absent (Bt3.convert_made w) || absent (Bt3.resample_made w)
                 || absent (Bt3.sink_made w) || negb (Bt3.link_ok w)))) /\
  (forall w, count is_play_request (Bt4.run_trace w) =
     flag (negb (absent (Bt4.playbin_made w)))).
Proof.
  split; [|split].
  - intros w. unfold Bt2.run_trace, Bt2.main, count.
    destruct w as [[src|] [snk|] [pl|] [|] ret bus po nret];
      cbn [Bt2.source_made Bt2.sink_made Bt2.pipeline_made Bt2.link_ok Bt2.play_ret
           Bt2.bus_of Bt2.popped Bt2.null_ret absent]; run_prog; try reflexivity.
    destruct (is_state_change_failure ret); [reflexivity|].
    destruct po as [m|]; [|reflexivity].
    pose proof (inside_loop_no_play_request _ (bt2_parse_message_inside m)) as H.
    destruct (Bt2.parse_message m tt) as [[[] []] t]. run_prog.
    cbn [filter is_play_request]. rewrite filter_app, H. reflexivity.
  - intros w. unfold Bt3.run_trace, Bt3.main, count.
    destruct w as [[src|] [conv|] [res|] [snk|] [pl|] [|] ret bus po nret];
      cbn [Bt3.source_made Bt3.convert_made Bt3.resample_made Bt3.sink_made
           Bt3.pipeline_made Bt3.link_ok Bt3.play_ret Bt3.bus_of Bt3.pops Bt3.null_ret
           absent];
      run_prog; try reflexivity.
    destruct (is_state_change_failure ret); [reflexivity|].
    pose proof (inside_loop_no_play_request _
                  (bt3_event_loop_inside (Bt3.mkData pl src conv res snk) bus po false))
      as H.
    destruct (Bt3.event_loop _ bus po false) as [[[] t] tr]. run_prog.
    destruct t; cbn [snd app filter is_play_request];
      rewrite ?filter_app, ?app_nil_r, H; reflexivity.
  - intros w. unfold Bt4.run_trace, count. rewrite bt4_main_eq.
    destruct (Bt4.playbin_made w) as [pb|]; [|reflexivity].
    destruct (is_state_change_failure (Bt4.play_ret w)); [reflexivity|].
    cbv zeta.
    pose proof (inside_loop_no_play_request _
                  (bt4_event_loop_inside (Bt4.bus_of w) (Bt4.turns w)
                     (Bt4.initial_data pb))) as H.
    unfold bt4_setup, bt4_teardown.
    destruct (Bt4.terminate _); rewrite trace_of_mk;
      cbn [app filter is_play_request absent negb flag];
      rewrite ?filter_app, H; reflexivity.
Qed.

(** A program whose construction fails never takes the bus of the
    pipeline and never waits on it; bt2, when construction succeeds,
    takes the bus once and waits on it exactly once. *)
Theorem failed_construction_never_listens :
  (forall w,
     count is_get_bus (Bt2.run_trace w) = flag (negb (bt2_construction_fails w)) /\
     count is_bus_pop (Bt2.run_trace w) = flag (negb (bt2_construction_fails w))) /\
  (forall w,
     count is_get_bus (Bt3.run_trace w) = flag (negb (bt3_construction_fails w)) /\
     (bt3_construction_fails w = true -> filter is_bus_pop (Bt3.run_trace w) = [])) /\
  (forall w,
     count is_get_bus (Bt4.run_trace w) = flag (negb (bt4_construction_fails w)) /\
     (bt4_construction_fails w = true -> filter is_bus_pop (Bt4.run_trace w) = [])).
Proof.
  split; [|split].
  - intros w. unfold Bt2.run_trace, Bt2.main, bt2_construction_fails, count.
    destruct w as [[src|] [snk|] [pl|] [|] ret bus po nret];
      cbn [Bt2.source_made Bt2.sink_made Bt2.pipeline_made Bt2.link_ok Bt2.play_ret
           Bt2.bus_of Bt2.popped Bt2.null_ret absent]; run_prog;
      try (split; reflexivity).
    destruct (is_state_change_failure ret); [split; reflexivity|].
    destruct po as [m|]; [|split; reflexivity].
    pose proof (inside_loop_no_get_bus _ (bt2_parse_message_inside m)) as Hg.
    pose proof (bt2_parse_message_no_bus_pop m) as Hp.
    destruct (Bt2.parse_message m tt) as [[[] []] t]. run_prog.
    cbn [filter is_get_bus is_bus_pop]. rewrite !filter_app, Hg, Hp. split; reflexivity.
  - intros w. unfold Bt3.run_trace, Bt3.main, bt3_construction_fails, count.
    destruct w as [[src|] [conv|] [res|] [snk|] [pl|] [|] ret bus po nret];
      cbn [Bt3.source_made Bt3.convert_made Bt3.resample_made Bt3.sink_made
           Bt3.pipeline_made Bt3.link_ok Bt3.play_ret Bt3.bus_of Bt3.pops Bt3.null_ret
           absent];
      run_prog; try (split; reflexivity).
    destruct (is_state_change_failure ret); [split; reflexivity|].
    pose proof (inside_loop_no_get_bus _
                  (bt3_event_loop_inside (Bt3.mkData pl src conv res snk) bus po false))
      as H.
    destruct (Bt3.event_loop _ bus po false) as [[[] t] tr]. run_prog.
    split; [|discriminate].
    destruct t; cbn [snd app filter is_get_bus];
      rewrite ?filter_app, ?app_nil_r, H; reflexivity.
  - intros w. unfold Bt4.run_trace, bt4_construction_fails, count. rewrite bt4_main_eq.
    destruct (Bt4.playbin_made w) as [pb|]; [|split; reflexivity].
    destruct (is_state_change_failure (Bt4.play_ret w)); [split; reflexivity|].
    cbv zeta. split; [|discriminate].
    pose proof (inside_loop_no_get_bus _
                  (bt4_event_loop_inside (Bt4.bus_of w) (Bt4.turns w)
                     (Bt4.initial_data pb))) as H.
    unfold bt4_setup, bt4_teardown.
    destruct (Bt4.terminate _); rewrite trace_of_mk;
      cbn [app filter is_get_bus absent negb flag orb];
      rewrite ?filter_app, H; reflexivity.
Qed.

Lemma failed_construction_never_listens_run :
  filter is_bus_pop (Bt4.run_trace Runs.bt4_refused) = [] /\
  filter is_bus_pop (Bt3.run_trace Runs.bt3_unlinkable) = [].
Proof.
  split.
  - apply (proj2 (proj2 failed_construction_never_listens) Runs.bt4_refused).
    reflexivity.
  - apply (proj1 (proj2 failed_construction_never_listens) Runs.bt3_unlinkable).
    reflexivity.
Defined.
